(** * Coherent chapter generation: a shallow embedding

    Verification of [tools/generate_coherent_chapters.py] and
    [core/ai_client.py].  Python [str] values are sequences of Unicode
    code points, Python [int] is [Z], exceptions are an explicit result
    type, and the outside world (CLI subprocesses, the filesystem, the
    embedding store) is explicit state plus per-invocation oracles. *)

From Stdlib Require Import ZArith NArith List String Ascii Lia Bool.
From Stdlib Require Import Decimal DecimalString DecimalZ.
From stdpp Require Import base option list gmap.

Local Open Scope Z_scope.
Local Open Scope list_scope.

(* ===================================================================== *)
(** ** Python strings *)
(* ===================================================================== *)

Module PyStr.

(** A Python [str] is a sequence of code points. *)
Definition char : Type := N.
Definition str : Type := list N.

(** Source literals are written in UTF-8; [utf8_decode] turns the bytes of
    a literal into its code points. *)
Fixpoint utf8_decode (bs : list N) : str :=
  match bs with
  | [] => []
  | b0 :: r0 =>
    if (b0 <? 128)%N then b0 :: utf8_decode r0
    else match r0 with
    | [] => [b0]
    | b1 :: r1 =>
      if (b0 <? 224)%N then
        ((b0 - 192) * 64 + (b1 - 128))%N :: utf8_decode r1
      else match r1 with
      | [] => [b0; b1]
      | b2 :: r2 =>
        if (b0 <? 240)%N then
          ((b0 - 224) * 4096 + (b1 - 128) * 64 + (b2 - 128))%N
            :: utf8_decode r2
        else match r2 with
        | [] => [b0; b1; b2]
        | b3 :: r3 =>
          ((b0 - 240) * 262144 + (b1 - 128) * 4096
             + (b2 - 128) * 64 + (b3 - 128))%N :: utf8_decode r3
        end
      end
    end
  end.

Definition u (s : string) : str :=
  utf8_decode (List.map N_of_ascii (list_ascii_of_string s)).

Definition dquote : str := [34%N].
Definition nl : str := [10%N].

(** Truthiness of a [str]: non-empty. *)
Definition truthy (s : str) : bool :=
  match s with [] => false | _ :: _ => true end.

(** [str.isspace] on one code point (CPython's [Py_UNICODE_ISSPACE]). *)
Definition is_space (c : char) : bool :=
  ((9 <=? c) && (c <=? 13) || (28 <=? c) && (c <=? 32)
   || (c =? 133) || (c =? 160) || (c =? 5760)
   || (8192 <=? c) && (c <=? 8202)
   || (c =? 8232) || (c =? 8233) || (c =? 8239) || (c =? 8287)
   || (c =? 12288))%N.

(** [s.lstrip()], [s.rstrip()], [s.strip()] with no argument. *)
Fixpoint lstrip (s : str) : str :=
  match s with
  | c :: r => if is_space c then lstrip r else s
  | [] => []
  end.

Definition rstrip (s : str) : str := rev (lstrip (rev s)).

Definition strip (s : str) : str := rstrip (lstrip s).

(** [s.split()] with no argument: maximal runs of non-whitespace.
    [cur] is the token being read, most recent character first. *)
Fixpoint split_from (cur : str) (s : str) : list str :=
  match s with
  | [] => match cur with [] => [] | _ => [rev cur] end
  | c :: r =>
    if is_space c then
      match cur with
      | [] => split_from [] r
      | _ => rev cur :: split_from [] r
      end
    else split_from (c :: cur) r
  end.

Definition split (s : str) : list str := split_from [] s.

(** [s.replace(old, new)] for a one-character [old]. *)
Definition replace_char (old : char) (new : str) (s : str) : str :=
  List.concat (List.map (fun c => if (c =? old)%N then new else [c]) s).

(** [sep.join(xs)]. *)
Fixpoint join (sep : str) (xs : list str) : str :=
  match xs with
  | [] => []
  | [x] => x
  | x :: r => x ++ sep ++ join sep r
  end.

(** [c * n] for a one-character string. *)
Definition repeat_char (c : char) (n : nat) : str := List.repeat c n.

(** Decimal rendering of an [int]: [str(n)], [f"{n}"], [f"{n:d}"]. *)
Definition dec (n : Z) : str :=
  List.map N_of_ascii (list_ascii_of_string (NilZero.string_of_int (Z.to_int n))).

(** [f"{n:02d}"]: sign-aware zero padding to a minimum width of two. *)
Definition dec02 (n : Z) : str :=
  if (0 <=? n) && (n <? 10) then u "0" ++ dec n else dec n.

(** [f"{n:,}"]: digits grouped in threes from the right. *)
Fixpoint group3 (rdigits : str) (k : nat) : str :=
  match rdigits with
  | [] => []
  | d :: r =>
    match k with
    | O => d :: match r with [] => [] | _ => 44%N :: group3 r 2 end
    | S k' => d :: group3 r k'
    end
  end.

Definition dec_comma (n : Z) : str :=
  if n <? 0 then u "-" ++ rev (group3 (rev (dec (- n))) 2)
  else rev (group3 (rev (dec n)) 2).

(** Substring test, [x in s]. *)
Definition infix (x s : str) : Prop := exists pre post, s = pre ++ x ++ post.

(** Prefix test, [s.startswith(x)]. *)
Definition starts_with (x s : str) : Prop := exists post, s = x ++ post.

(** The substring test, computed. *)
Fixpoint prefixb (x s : str) : bool :=
  match x, s with
  | [], _ => true
  | _ :: _, [] => false
  | a :: x', b :: s' => (a =? b)%N && prefixb x' s'
  end.

Fixpoint infixb (x s : str) : bool :=
  prefixb x s || match s with [] => false | _ :: s' => infixb x s' end.

(** ASCII lowering; agrees with [str.lower] on ASCII text. *)
Definition ascii_lower (s : str) : str :=
  List.map (fun c => if (65 <=? c)%N && (c <=? 90)%N then (c + 32)%N else c) s.

End PyStr.
Import PyStr.

(* ===================================================================== *)
(** ** pathlib (POSIX flavour) *)
(* ===================================================================== *)

Module PyPath.

(** A [PurePosixPath]: the root (empty, one slash or two) and the parts
    below it. *)
Record Path : Type := MkPath { root : str; parts : list str }.

(** [s.split('/')], empty segments kept.  [cur] is the segment being
    read, most recent character first. *)
Fixpoint segments_from (cur : str) (s : str) : list str :=
  match s with
  | [] => [rev cur]
  | c :: r =>
    if (c =? 47)%N then rev cur :: segments_from [] r
    else segments_from (c :: cur) r
  end.

Definition is_empty (s : str) : bool :=
  match s with [] => true | _ => false end.

Definition is_dot (s : str) : bool :=
  match s with [c] => (c =? 46)%N | _ => false end.

(** The root of a path string: two leading slashes are kept as they are,
    one or at least three collapse to a single slash. *)
Definition parse_root (s : str) : str :=
  match s with
  | 47%N :: 47%N :: 47%N :: _ => u "/"
  | 47%N :: 47%N :: _ => u "//"
  | 47%N :: _ => u "/"
  | _ => []
  end.

(** [PurePosixPath(s)]: empty and [.] segments are dropped, [..] stays. *)
Definition parse (s : str) : Path :=
  {| root := parse_root s;
     parts := List.filter (fun x => negb (is_empty x) && negb (is_dot x))
                          (segments_from [] s) |}.

(** [p / seg]: an absolute right operand replaces the left one. *)
Definition joinpath (p : Path) (seg : str) : Path :=
  let q := parse seg in
  if truthy (root q) then q
  else {| root := root p; parts := parts p ++ parts q |}.

(** [p.parent]. *)
Definition parent (p : Path) : Path :=
  {| root := root p; parts := removelast (parts p) |}.

(** [str(p)]. *)
Definition to_str (p : Path) : str :=
  match root p, parts p with
  | [], [] => u "."
  | r, ps => r ++ join (u "/") ps
  end.

(** The directory itself and its ancestors, outermost first: what
    [mkdir(parents=True)] makes sure exists. *)
Definition with_ancestors (p : Path) : list Path :=
  List.map (fun k => {| root := root p; parts := firstn k (parts p) |})
           (seq 1 (length (parts p))).

End PyPath.
Import PyPath.

(* ===================================================================== *)
(** ** Exceptions and results *)
(* ===================================================================== *)

(** The exception classes the code names or can meet; all are subclasses
    of [Exception].  Asynchronous interrupts are outside the model. *)
Inductive exn_class : Type :=
| TimeoutExpired
| FileNotFoundError
| OSError
| ValueError
| Exception.

(** An exception object: its class and [str(e)]. *)
Record exn : Type := MkExn { exn_kind : exn_class; exn_str : str }.

Inductive Result (A : Type) : Type :=
| Ok (a : A)
| Raise (e : exn).
Arguments Ok {A} a.
Arguments Raise {A} e.

(* ===================================================================== *)
(** ** The world *)
(* ===================================================================== *)

(** Chapter metadata as the generator passes it to the store. *)
Record Metadata : Type := MkMeta { title : str; word_count : Z }.

(** The calls made to collaborators (console, AI client, subprocesses,
    store, filesystem), in program order.  [Saved] marks the normal exit
    of a [with open(...)] block: the text is on disk. *)
Inductive event : Type :=
| Print (line : str)
| CallAI (prompt provider : str) (max_tokens : Z)
| Run (argv : list str) (input : option str) (timeout : Z)
| OpenStore (book_dir : str)
| GetContext (chapter_num : Z)
| IndexChapter (chapter_num : Z) (content : str) (meta : Metadata)
| Mkdir (dir : str)
| OpenW (path : str)
| Write (path : str) (content : str)
| Saved (path : str) (content : str).

(** The outcome of [subprocess.run(..., capture_output=True, text=True)]. *)
Inductive run_outcome : Type :=
| Completed (returncode : Z) (stdout stderr : str)
| RunRaises (e : exn).

(** What the environment decides during one invocation: how a CLI
    subprocess ends, which filesystem operations the OS refuses (and, for
    a refused write, what had reached the disk), and whether the embedding
    backend could be loaded. *)
Record Env : Type := MkEnv {
  subprocess_run : list str -> option str -> run_outcome;
  mkdir_fault : str -> option exn;
  open_fault : str -> option exn;
  write_fault : str -> str -> option (exn * str);
  backend_available : bool
}.

Section Program.

(** Embedding vectors are opaque to the generator. *)
Context {V : Type}.

(** [str.lower]: the Unicode case tables belong to the interpreter. *)
Variable lower : str -> str.

(** One record of the embedding store. *)
Record Entry : Type := MkEntry { embedding_vector : V; metadata : Metadata }.

(** The persistent state: files (path to text), directories, the stored
    collections by project directory, and the trace of requests. *)
Record World : Type := MkWorld {
  files : gmap str str;
  dirs : gset str;
  stores : gmap str (gmap Z Entry);
  trace : list event
}.

Definition set_files (f : gmap str str) (w : World) : World :=
  {| files := f; dirs := dirs w; stores := stores w; trace := trace w |}.
Definition set_dirs (d : gset str) (w : World) : World :=
  {| files := files w; dirs := d; stores := stores w; trace := trace w |}.
Definition set_stores (s : gmap str (gmap Z Entry)) (w : World) : World :=
  {| files := files w; dirs := dirs w; stores := s; trace := trace w |}.
Definition log (e : event) (w : World) : World :=
  {| files := files w; dirs := dirs w; stores := stores w;
     trace := trace w ++ [e] |}.

(** Computations: they read and change the world and may raise. *)
Definition M (A : Type) : Type := World -> Result A * World.

Definition ret {A} (a : A) : M A := fun w => (Ok a, w).

Definition bind {A B} (m : M A) (k : A -> M B) : M B :=
  fun w => match m w with
           | (Ok a, w') => k a w'
           | (Raise e, w') => (Raise e, w')
           end.

Definition raise {A} (e : exn) : M A := fun w => (Raise e, w).

(** [try: m  except Exception as e: h e]. *)
Definition try_except {A} (m : M A) (h : exn -> M A) : M A :=
  fun w => match m w with
           | (Ok a, w') => (Ok a, w')
           | (Raise e, w') => h e w'
           end.

#[global] Instance M_ret : MRet M := @ret.
#[global] Instance M_bind : MBind M := fun A B k m => bind m k.

Definition emit (e : event) : M unit := fun w => (Ok tt, log e w).

Definition print (line : str) : M unit := emit (Print line).

(* --------------------------------------------------------------------- *)
(** *** The operating system *)
(* --------------------------------------------------------------------- *)

Variable env : Env.

(** [subprocess.run(argv, input=..., capture_output=True, text=True,
    timeout=...)]. *)
Definition run (argv : list str) (input : option str) (timeout : Z)
  : M (Z * str * str) :=
  fun w =>
    match subprocess_run env argv input with
    | Completed rc out err => (Ok (rc, out, err), log (Run argv input timeout) w)
    | RunRaises e => (Raise e, log (Run argv input timeout) w)
    end.

(** [p.mkdir(parents=True, exist_ok=True)]. *)
Definition mkdir_parents (p : Path) : M unit :=
  fun w =>
    let w1 := log (Mkdir (to_str p)) w in
    match mkdir_fault env (to_str p) with
    | Some e => (Raise e, w1)
    | None =>
      (Ok tt, set_dirs (list_to_set (List.map to_str (with_ancestors p)) ∪ dirs w1) w1)
    end.

(** [with open(p, 'w', encoding='utf-8') as f: f.write(content)].
    Opening truncates; a refused write leaves what had reached the disk
    and the exception leaves the block. *)
Definition write_text (p : Path) (content : str) : M unit :=
  fun w =>
    let name := to_str p in
    let w1 := log (OpenW name) w in
    match open_fault env name with
    | Some e => (Raise e, w1)
    | None =>
      let w2 := log (Write name content) (set_files (<[name := []]> (files w1)) w1) in
      match write_fault env name content with
      | Some (e, partial) => (Raise e, set_files (<[name := partial]> (files w2)) w2)
      | None =>
        (Ok tt, log (Saved name content) (set_files (<[name := content]> (files w2)) w2))
      end
    end.

(* --------------------------------------------------------------------- *)
(** *** core/ai_client.py *)
(* --------------------------------------------------------------------- *)

Definition Exception_ (msg : str) : exn := MkExn Exception msg.

Definition call_claude_cli (prompt : str) : M str :=
  try_except
    (result ← run [u "claude"; u "--print"] (Some prompt) 120;
     let '(returncode, stdout, stderr) := result in
     if negb (returncode =? 0)
     then raise (Exception_ (u "Claude CLI error: " ++ stderr))
     else ret (strip stdout))
    (fun e =>
       match exn_kind e with
       | TimeoutExpired => raise (Exception_ (u "Claude CLI timeout"))
       | FileNotFoundError =>
         raise (Exception_ (u "Claude CLI not found. Install with: npm install -g @anthropic-ai/claude-cli"))
       | _ => raise (Exception_ (u "Claude CLI error: " ++ exn_str e))
       end).

Definition call_gemini_cli (prompt : str) : M str :=
  try_except
    (result ← run [u "gemini"; prompt] None 120;
     let '(returncode, stdout, stderr) := result in
     if negb (returncode =? 0)
     then raise (Exception_ (u "Gemini CLI error: " ++ stderr))
     else ret (strip stdout))
    (fun e =>
       match exn_kind e with
       | TimeoutExpired => raise (Exception_ (u "Gemini CLI timeout"))
       | FileNotFoundError =>
         raise (Exception_ (u "Gemini CLI not found. Install Gemini CLI first"))
       | _ => raise (Exception_ (u "Gemini CLI error: " ++ exn_str e))
       end).

(** [call_ai(prompt, provider, temperature, max_tokens)]; the last two
    are accepted and never used.  [None] is the failure value. *)
Definition call_ai (prompt : str) (provider : str) (max_tokens : Z)
  : M (option str) :=
  emit (CallAI prompt provider max_tokens);;
  try_except
    (if decide (provider = u "claude") then
       r ← call_claude_cli prompt; ret (Some r)
     else if decide (provider = u "gemini") then
       r ← call_gemini_cli prompt; ret (Some r)
     else raise (MkExn ValueError (u "Unknown provider: " ++ provider)))
    (fun e =>
       print (u "  Error calling " ++ provider ++ u ": " ++ exn_str e);;
       ret None).

(* --------------------------------------------------------------------- *)
(** *** core/embeddings.py *)
(* --------------------------------------------------------------------- *)

(** Modelled from the spec: the embedding function, the relevance score,
    the implicit query and the excerpt format of [core/embeddings.py],
    which the store delegates to its embedding backend. *)
Record Backend : Type := MkBackend {
  embed : str -> V;
  embed_limit : nat;
  query_for : list (Z * Entry) -> Z -> V;
  similarity : V -> V -> Z;
  excerpt : Z -> Entry -> str;
  max_excerpts : nat
}.

Variable backend : Backend.

(** Modelled from the spec: the store handle [BookEmbeddings], missing
    from the sources.  It names the project directory whose persisted
    collection it opened; [connected] is false when the embedding backend
    is unavailable, and then the handle has no collection. *)
Record BookEmbeddings : Type := MkHandle {
  project_dir : str;
  connected : bool
}.

(** Modelled from the spec: the constructor [BookEmbeddings(book_dir)]
    opens the collection persisted under the project directory (an absent
    one is the empty one) and tolerates a missing backend. *)
Definition BookEmbeddings_init (book_dir : str) : M BookEmbeddings :=
  emit (OpenStore book_dir);;
  ret {| project_dir := book_dir; connected := backend_available env |}.

(** Modelled from the spec: the attribute [collection] of the handle, a
    mapping from chapter number to embedding and metadata. *)
Definition collection (h : BookEmbeddings) (w : World)
  : option (gmap Z Entry) :=
  if connected h then Some (default ∅ (stores w !! project_dir h)) else None.

(** Higher relevance first; equal relevance, higher chapter number first. *)
Definition ranks_before (q : V) (a b : Z * Entry) : bool :=
  let sa := similarity backend q (embedding_vector (snd a)) in
  let sb := similarity backend q (embedding_vector (snd b)) in
  (sb <? sa) || ((sa =? sb) && (fst b <=? fst a)).

Fixpoint insert_ranked (q : V) (x : Z * Entry) (l : list (Z * Entry))
  : list (Z * Entry) :=
  match l with
  | [] => [x]
  | y :: r => if ranks_before q x y then x :: l else y :: insert_ranked q x r
  end.

Definition rank (q : V) (l : list (Z * Entry)) : list (Z * Entry) :=
  List.fold_right (insert_ranked q) [] l.

(** Modelled from the spec: the context string of §4.1, from the strictly
    earlier chapters of a collection. *)
Definition context_of (c : option (gmap Z Entry)) (chapter_number : Z) : str :=
  match c with
  | None => []
  | Some m =>
    let earlier :=
      List.filter (fun kv => fst kv <? chapter_number) (map_to_list m) in
    match earlier with
    | [] => []
    | _ =>
      let q := query_for backend earlier chapter_number in
      List.concat (List.map (fun kv => excerpt backend (fst kv) (snd kv))
                            (firstn (max_excerpts backend) (rank q earlier)))
    end
  end.

(** Modelled from the spec: [get_chapter_context(chapter_number)], missing
    from the sources; a query, the store is not changed. *)
Definition get_chapter_context (h : BookEmbeddings) (chapter_number : Z)
  : M str :=
  fun w => (Ok (context_of (collection h w) chapter_number),
            log (GetContext chapter_number) w).

(** Modelled from the spec: [index_chapter(chapter_number, content,
    metadata)], missing from the sources; an upsert keyed by the chapter
    number, and nothing when the backend is unavailable. *)
Definition index_chapter (h : BookEmbeddings) (chapter_number : Z)
    (content : str) (meta : Metadata) : M unit :=
  fun w =>
    let w1 := log (IndexChapter chapter_number content meta) w in
    match collection h w with
    | None => (Ok tt, w1)
    | Some c =>
      let entry := {| embedding_vector :=
                        embed backend (firstn (embed_limit backend) content);
                      metadata := meta |} in
      (Ok tt, set_stores (<[project_dir h := <[chapter_number := entry]> c]>
                            (stores w1)) w1)
    end.

(* --------------------------------------------------------------------- *)
(** *** tools/generate_coherent_chapters.py *)
(* --------------------------------------------------------------------- *)

(** The label put before a non-empty context. *)
Definition context_label : str :=
  u "**IMPORTANT - Maintain consistency with previous chapters:**".

(** The fixed tail of the prompt. *)
Definition requirements : str :=
  u "**Requirements:**" ++ nl ++
  u "- Write in Spanish (España/Latin America neutral)" ++ nl ++
  u "- 4,000-5,000 words" ++ nl ++
  u "- Scientific rigor (cite sources)" ++ nl ++
  u "- Balance: 60% technical, 40% narrative" ++ nl ++
  u "- Include:" ++ nl ++
  u "  * Opening hook (compelling anecdote)" ++ nl ++
  u "  * Scientific evidence (studies, data)" ++ nl ++
  u "  * Practical frameworks" ++ nl ++
  u "  * Code examples where relevant" ++ nl ++
  u "  * Takeaways section" ++ nl ++
  u "- Style: Like " ++ dquote ++ u "Agilmente" ++ dquote ++
    u " by Bachrach - accessible but rigorous" ++ nl ++
  u "- Format: Markdown" ++ nl ++
  nl ++
  u "Write the COMPLETE chapter now." ++ nl.

(** The opening sentence of the prompt. *)
Definition opening (chapter_num : Z) : str :=
  u "You are writing Chapter " ++ dec chapter_num ++ u " of " ++
  dquote ++ u "El Desarrollador Ágil" ++ dquote ++
  u ", a technical book on developer productivity." ++ nl.

(** The heading line of the prompt. *)
Definition heading (chapter_num : Z) (chapter_title : str) : str :=
  u "**Chapter " ++ dec chapter_num ++ u ": " ++ chapter_title ++ u "**" ++ nl.

(** The f-string bound to [prompt]. *)
Definition build_prompt (chapter_num : Z) (chapter_title outline context : str)
  : str :=
  opening chapter_num ++
  nl ++
  heading chapter_num chapter_title ++
  nl ++
  outline ++ nl ++
  nl ++
  (if truthy context then context_label else []) ++ nl ++
  (if truthy context then context else []) ++ nl ++
  nl ++
  requirements.

(** The name of the chapter file. *)
Definition chapter_file_name (chapter_num : Z) (chapter_title : str) : str :=
  u "chapter" ++ dec02 chapter_num ++ u "_" ++
  replace_char 32%N (u "_") (lower chapter_title) ++ u ".md".

(** [Path(book_dir) / "outputs" / "chapters"]. *)
Definition chapters_dir (book_dir : str) : Path :=
  joinpath (joinpath (parse book_dir) (u "outputs")) (u "chapters").

Definition output_path_of (book_dir : str) (chapter_num : Z)
    (chapter_title : str) : Path :=
  joinpath (chapters_dir book_dir) (chapter_file_name chapter_num chapter_title).

(** [not chapter_content]: [None] and the empty string are falsy. *)
Definition falsy (r : option str) : bool :=
  match r with
  | None => true
  | Some s => negb (truthy s)
  end.

Definition banner : str := repeat_char 61%N 60.

Definition generate_chapter_with_coherence
    (chapter_num : Z) (chapter_title outline book_dir provider : str)
  : M (option str) :=
  print (nl ++ banner);;
  print (u "GENERATING CHAPTER " ++ dec chapter_num ++ u ": " ++ chapter_title);;
  print (banner ++ nl);;
  embeddings ← BookEmbeddings_init book_dir;
  context ←
    (if 1 <? chapter_num then
       print (u "  Retrieving context from previous chapters...");;
       c ← get_chapter_context embeddings chapter_num;
       print (u "  ✓ Got context from " ++ dec (chapter_num - 1)
                ++ u " previous chapters" ++ nl);;
       ret c
     else ret []);
  let prompt := build_prompt chapter_num chapter_title outline context in
  print (u "  Generating chapter with " ++ provider ++ u "...");;
  chapter_content ← call_ai prompt provider 8000;
  match chapter_content with
  | Some ((_ :: _) as content) =>
    let output_path := output_path_of book_dir chapter_num chapter_title in
    mkdir_parents (parent output_path);;
    write_text output_path content;;
    let word_count := Z.of_nat (length (split content)) in
    print (u "  ✓ Chapter saved: " ++ to_str output_path);;
    print (u "  ✓ Word count: " ++ dec_comma word_count);;
    (if connected embeddings then
       print (u "  Indexing chapter for future coherence...");;
       index_chapter embeddings chapter_num content
         {| title := chapter_title; word_count := word_count |};;
       print (u "  ✓ Chapter indexed" ++ nl)
     else ret tt);;
    ret (Some content)
  | _ =>
    print (u "  ✗ Failed to generate chapter");;
    ret None
  end.

End Program.

Arguments Entry : clear implicits.
Arguments World : clear implicits.
Arguments M : clear implicits.
Arguments Backend : clear implicits.

(* ===================================================================== *)
(** ** The callers of the AI client *)
(* ===================================================================== *)

Module PySeq.

(** The first index at which [sub] occurs in [s], if any. *)
Fixpoint find_in (sub s : str) : option nat :=
  if prefixb sub s then Some O
  else match s with
       | [] => None
       | _ :: r => S <$> find_in sub r
       end.

(** A slice bound as Python reads it: negative bounds count from the end,
    all bounds are clipped to the string. *)
Definition clip (len : Z) (i : Z) : Z :=
  if i <? 0 then Z.max (i + len) 0 else Z.min i len.

(** [s.find(sub, start)]: the lowest index at or after [start] where
    [sub] occurs, or -1. *)
Definition find (sub s : str) (start : Z) : Z :=
  let from := clip (Z.of_nat (length s)) start in
  match find_in sub (skipn (Z.to_nat from) s) with
  | Some i => from + Z.of_nat i
  | None => -1
  end.

(** [s[a:b]]. *)
Definition slice (s : str) (a b : Z) : str :=
  let len := Z.of_nat (length s) in
  let a' := clip len a in
  let b' := clip len b in
  firstn (Z.to_nat (b' - a')) (skipn (Z.to_nat a') s).

End PySeq.
Import PySeq.

Unset Elimination Schemes.

(** A value of [json.loads]; numbers other than integers stay opaque. *)
Inductive json (Num : Type) : Type :=
| JNull
| JBool (b : bool)
| JInt (n : Z)
| JNum (x : Num)
| JStr (s : str)
| JList (items : list (json Num))
| JDict (members : list (str * json Num)).
Arguments JNull {Num}.
Arguments JBool {Num} b.
Arguments JInt {Num} n.
Arguments JNum {Num} x.
Arguments JStr {Num} s.
Arguments JList {Num} items.
Arguments JDict {Num} members.

Set Elimination Schemes.

(** How [json.loads] ends: a value, or [JSONDecodeError] with its text. *)
Inductive loads_outcome (Num : Type) : Type :=
| Loaded (v : json Num)
| DecodeError (msg : str).
Arguments Loaded {Num} v.
Arguments DecodeError {Num} msg.

(** One result of the [arxiv] package, as [search_arxiv] reads it. *)
Record ArxivResult : Type := MkArxivResult {
  r_title : str;
  r_authors : list str;
  r_summary : str;
  r_entry_id : str;
  r_year : Z
}.

(** How a search with the [arxiv] package ends: the package is not
    installed, the search raises, or it yields its results. *)
Inductive arxiv_outcome : Type :=
| ArxivMissing
| ArxivFails (e : exn)
| ArxivFinds (results : list ArxivResult).

(** What the environment decides for the research step: the arXiv
    search by query and result limit, and the current date as
    [strftime("%Y-%m-%d")] prints it. *)
Record ResearchEnv : Type := MkResearchEnv {
  arxiv_search : str -> Z -> arxiv_outcome;
  current_date : str
}.

(** A paper dict.  ['title'] is read with [p['title']], the other keys
    with [p.get(key, default)]. *)
Record Paper : Type := MkPaper {
  p_title : str;
  p_authors : option (list str);
  p_abstract : option str;
  p_url : option str;
  p_published : option Z;
  p_source : option str
}.

(** The arguments of the [research] command. *)
Record ResearchArgs : Type := MkResearchArgs {
  query : str;
  databases : list str;
  limit : Z
}.

Section Callers.

Context {V : Type}.
Variable env : Env.
Variable renv : ResearchEnv.

(* --------------------------------------------------------------------- *)
(** *** core/ai_client.py, continued *)
(* --------------------------------------------------------------------- *)

Section Json.

Variable Num : Type.

(** [json.loads], the parser of the interpreter's library. *)
Variable json_loads : str -> loads_outcome Num.

(** The instruction [call_ai_json] appends to the prompt. *)
Definition json_suffix : str :=
  nl ++ nl ++
  u "IMPORTANT: Respond with valid JSON only. No markdown, no explanations, just pure JSON."
  ++ nl.

Definition fence : str := u "```".
Definition json_fence : str := u "```json".

(** The text [call_ai_json] hands to the parser: what stands between a
    markdown fence and the next one, stripped, or the response as it is
    when it has no fence. *)
Definition extract_fenced (response : str) : str :=
  if infixb json_fence response then
    let start := find json_fence response 0 + 7 in
    let end_ := find fence response start in
    strip (slice response start end_)
  else if infixb fence response then
    let start := find fence response 0 + 3 in
    let end_ := find fence response start in
    strip (slice response start end_)
  else response.

Definition call_ai_json (prompt provider : str) : M V (json Num) :=
  let json_prompt := prompt ++ json_suffix in
  response ← call_ai (V:=V) env json_prompt provider 4000;
  match response with
  | Some ((_ :: _) as response) =>
    let response := extract_fenced response in
    match json_loads response with
    | Loaded v => ret v
    | DecodeError msg =>
      print (u "  Warning: Failed to parse JSON: " ++ msg);;
      print (u "  Response was: " ++ firstn 200 response ++ u "...");;
      ret (JDict [(u "raw_response", JStr response)])
    end
  | _ => ret (JDict [])
  end.

End Json.

Definition claude_test_prompt : str := u "Say 'Claude works!' and nothing else".
Definition gemini_test_prompt : str := u "Say 'Gemini works!' and nothing else".

Definition test_ai_clients : M V unit :=
  print (u "Testing AI Clients...");;
  print (repeat_char 45%N 60);;
  print (nl ++ u "1. Testing Claude CLI...");;
  try_except
    (response ← call_claude_cli (V:=V) env claude_test_prompt;
     print (u "   Response: " ++ response);;
     print (u "   ✓ Claude CLI working"))
    (fun e => print (u "   ✗ Claude error: " ++ exn_str e));;
  print (nl ++ u "2. Testing Gemini CLI...");;
  try_except
    (response ← call_gemini_cli (V:=V) env gemini_test_prompt;
     print (u "   Response: " ++ response);;
     print (u "   ✓ Gemini CLI working"))
    (fun e => print (u "   ✗ Gemini error: " ++ exn_str e));;
  print (nl ++ repeat_char 45%N 60);;
  print (u "AI Client tests complete!").

(* --------------------------------------------------------------------- *)
(** *** agents/agent1_research.py *)
(* --------------------------------------------------------------------- *)

(** The dict [search_arxiv] builds from one result. *)
Definition paper_of_result (r : ArxivResult) : Paper :=
  {| p_title := r_title r;
     p_authors := Some (r_authors r);
     p_abstract := Some (r_summary r);
     p_url := Some (r_entry_id r);
     p_published := Some (r_year r);
     p_source := Some (u "arXiv") |}.

Definition search_arxiv (query : str) (limit : Z) : M V (list Paper) :=
  match arxiv_search renv query limit with
  | ArxivFinds results => ret (List.map paper_of_result results)
  | ArxivMissing =>
    print (u "    Warning: arxiv package not installed. Skipping arXiv search.");;
    ret []
  | ArxivFails e =>
    print (u "    Error searching arXiv: " ++ exn_str e);;
    ret []
  end.

Definition search_scholar (query : str) (limit : Z) : M V (list Paper) :=
  print (u "    Note: Google Scholar search requires scholarly package");;
  ret [].

Definition search_acm (query : str) (limit : Z) : M V (list Paper) :=
  print (u "    Note: ACM search requires API access");;
  ret [].

(** [name in databases]. *)
Definition listed (name : str) (databases : list str) : bool :=
  bool_decide (name ∈ databases).

Definition search_papers (query : str) (databases : list str) (limit : Z)
  : M V (list Paper) :=
  print (u "Searching databases...");;
  arxiv_papers ←
    (if listed (u "arxiv") databases then
       print (u "  - Searching arXiv...");;
       search_arxiv query (limit / Z.of_nat (length databases))
     else ret []);
  scholar_papers ←
    (if listed (u "scholar") databases then
       print (u "  - Searching Google Scholar...");;
       search_scholar query (limit / Z.of_nat (length databases))
     else ret []);
  acm_papers ←
    (if listed (u "acm") databases then
       print (u "  - Searching ACM Digital Library...");;
       search_acm query (limit / Z.of_nat (length databases))
     else ret []);
  let papers := arxiv_papers ++ scholar_papers ++ acm_papers in
  print (nl ++ u "  Found " ++ dec (Z.of_nat (length papers))
            ++ u " papers total" ++ nl);;
  ret papers.

(** [', '.join(p.get('authors', ['Unknown']))]. *)
Definition authors_line (p : Paper) : str :=
  join (u ", ") (default [u "Unknown"] (p_authors p)).

(** [p.get('published', 'Unknown')], formatted. *)
Definition year_text (p : Paper) : str :=
  match p_published p with
  | Some y => dec y
  | None => u "Unknown"
  end.

(** The lines of one paper in the synthesis prompt. *)
Definition paper_block (p : Paper) : str :=
  u "**" ++ p_title p ++ u "**" ++ nl ++
  u "Authors: " ++ authors_line p ++ nl ++
  u "Year: " ++ year_text p ++ nl ++
  u "Abstract: " ++ default (u "No abstract available") (p_abstract p).

(** The f-string bound to [prompt] in [synthesize_with_ai]. *)
Definition synthesis_prompt (query papers_text : str) : str :=
  u "You are a research synthesizer for technical book writing." ++ nl ++
  nl ++
  u "Research Query: " ++ query ++ nl ++
  nl ++
  u "Papers Found:" ++ nl ++
  papers_text ++ nl ++
  nl ++
  u "Your task:" ++ nl ++
  u "1. Summarize the KEY FINDINGS across these papers" ++ nl ++
  u "2. Identify COMMON THEMES and patterns" ++ nl ++
  u "3. Note any CONTRADICTIONS or debates" ++ nl ++
  u "4. Identify RESEARCH GAPS where more evidence is needed" ++ nl ++
  u "5. Suggest PRACTICAL IMPLICATIONS for developers/engineers" ++ nl ++
  nl ++
  u "Format your response as:" ++ nl ++
  nl ++
  u "## Key Findings" ++ nl ++
  nl ++
  u "## Common Themes" ++ nl ++
  nl ++
  u "## Contradictions & Debates" ++ nl ++
  nl ++
  u "## Research Gaps" ++ nl ++
  nl ++
  u "## Practical Implications" ++ nl ++
  nl ++
  u "## Recommended Papers for Citation" ++ nl ++
  u "(List top 5 most relevant with brief explanation why)" ++ nl ++
  nl ++
  u "Be specific, cite paper titles when referencing findings." ++ nl.

(** One numbered entry of the basic summary. *)
Definition summary_entry (i : Z) (paper : Paper) : str :=
  dec i ++ u ". **" ++ p_title paper ++ u "**" ++ nl ++
  u "   - Authors: " ++ authors_line paper ++ nl ++
  u "   - Year: " ++ year_text paper ++ nl ++
  u "   - Source: " ++ default (u "Unknown") (p_source paper) ++ nl ++ nl.

(** The loop over [enumerate(papers[:20], 1)], from index [i]. *)
Fixpoint summary_entries (i : Z) (papers : list Paper) : str :=
  match papers with
  | [] => []
  | paper :: rest => summary_entry i paper ++ summary_entries (i + 1) rest
  end.

Definition create_basic_summary (papers : list Paper) : str :=
  u "# Research Summary" ++ nl ++ nl ++
  (u "Found " ++ dec (Z.of_nat (length papers)) ++ u " papers" ++ nl ++ nl) ++
  (u "## Papers:" ++ nl ++ nl) ++
  summary_entries 1 (firstn 20 papers).

Definition synthesize_with_ai (papers : list Paper) (query : str) : M V str :=
  match papers with
  | [] => ret (u "No papers found to synthesize.")
  | _ :: _ =>
    print (u "Synthesizing findings with AI...");;
    let papers_text :=
      join (nl ++ nl) (List.map paper_block (firstn 10 papers)) in
    try_except
      (let prompt := synthesis_prompt query papers_text in
       response ← call_ai (V:=V) env prompt (u "claude") 4000;
       match response with
       | Some ((_ :: _) as response) => ret response
       | _ =>
         print (u "  Claude failed, trying Gemini...");;
         response ← call_ai (V:=V) env prompt (u "gemini") 4000;
         match response with
         | Some ((_ :: _) as response) => ret response
         | _ =>
           print (u "  Both AIs failed, returning basic summary");;
           ret (create_basic_summary papers)
         end
       end)
      (fun e =>
         print (u "  Error calling AI: " ++ exn_str e);;
         ret (create_basic_summary papers))
  end.

Definition get_current_date : M V str := ret (current_date renv).

(** [with open(p, "w") as f: f.write(c1); f.write(c2); ...].  Opening
    truncates; each write appends; a refused write leaves what had
    reached the disk and the exception leaves the block. *)
Fixpoint write_each (name : str) (chunks : list str) : M V unit :=
  match chunks with
  | [] => ret tt
  | c :: rest =>
    fun w =>
      let w1 := log (Write name c) w in
      let sofar := default [] (files w1 !! name) in
      match write_fault env name c with
      | Some (e, partial) =>
        (Raise e, set_files (<[name := sofar ++ partial]> (files w1)) w1)
      | None =>
        write_each name rest (set_files (<[name := sofar ++ c]> (files w1)) w1)
      end
  end.

Definition write_chunks (p : Path) (chunks : list str) : M V unit :=
  fun w =>
    let name := to_str p in
    let w1 := log (OpenW name) w in
    match open_fault env name with
    | Some e => (Raise e, w1)
    | None =>
      match write_each name chunks
              (set_files (<[name := []]> (files w1)) w1) with
      | (Ok _, w2) => (Ok tt, log (Saved name (List.concat chunks)) w2)
      | (Raise e, w2) => (Raise e, w2)
      end
    end.

Definition synthesis_path : Path := parse (u "outputs/research_synthesis.md").

Definition save_research_results (synthesis query : str) : M V unit :=
  mkdir_parents (V:=V) env (parse (u "outputs"));;
  date ← get_current_date;
  write_chunks synthesis_path
    [u "# Research Synthesis" ++ nl ++ nl;
     u "**Query:** " ++ query ++ nl ++ nl;
     u "**Date:** " ++ date ++ nl ++ nl;
     u "---" ++ nl ++ nl;
     synthesis];;
  print (u "  " ++ [226; 339; 8220]%N ++ u " Saved: outputs/research_synthesis.md").

Definition run_research (args : ResearchArgs) : M V unit :=
  print (repeat_char 61%N 60);;
  print (u "RESEARCH SYNTHESIZER - Finding Scientific Evidence");;
  print (repeat_char 61%N 60);;
  print (nl ++ u "Query: " ++ query args);;
  print (u "Databases: " ++ join (u ", ") (databases args));;
  print (u "Limit: " ++ dec (limit args) ++ u " papers" ++ nl);;
  papers ← search_papers (query args) (databases args) (limit args);
  synthesis ← synthesize_with_ai papers (query args);
  save_research_results synthesis (query args);;
  print (nl ++ repeat_char 61%N 60);;
  print (u "RESEARCH COMPLETE!");;
  print (repeat_char 61%N 60);;
  print (nl ++ u "Output: outputs/research_synthesis.md");;
  print (u "Bibliography: outputs/bibliography.bib").

End Callers.

(* ===================================================================== *)
(** ** Vocabulary of the statements *)
(* ===================================================================== *)

(** The world after a further run of calls. *)
Definition logs {V} (t : list event) (w : World V) : World V :=
  {| files := files w; dirs := dirs w; stores := stores w;
     trace := trace w ++ t |}.

(** The subprocess a provider stands for: its argument vector and what is
    fed to its standard input.  Unknown providers stand for none. *)
Definition cli_request (provider prompt : str)
  : option (list str * option str) :=
  if decide (provider = u "claude") then
    Some ([u "claude"; u "--print"], Some prompt)
  else if decide (provider = u "gemini") then
    Some ([u "gemini"; prompt], None)
  else None.

(** How the provider's CLI ends in an environment. *)
Definition cli_outcome (env : Env) (provider prompt : str)
  : option run_outcome :=
  match cli_request provider prompt with
  | Some (argv, input) => Some (subprocess_run env argv input)
  | None => None
  end.

(** The subprocess calls a provider gives rise to. *)
Definition cli_runs (provider prompt : str) : list event :=
  match cli_request provider prompt with
  | Some (argv, input) => [Run argv input 120]
  | None => []
  end.

Definition is_print (e : event) : bool :=
  match e with Print _ => true | _ => false end.

Definition is_run (e : event) : bool :=
  match e with Run _ _ _ => true | _ => false end.

Definition is_index (e : event) : bool :=
  match e with IndexChapter _ _ _ => true | _ => false end.

Definition is_get_context (e : event) : bool :=
  match e with GetContext _ => true | _ => false end.

Definition is_saved (e : event) : bool :=
  match e with Saved _ _ => true | _ => false end.

(** The calls of a trace other than console output. *)
Definition calls (t : list event) : list event :=
  List.filter (fun e => negb (is_print e)) t.

(** The store query an invocation makes for its chapter number. *)
Definition context_calls (chapter_num : Z) : list event :=
  if 1 <? chapter_num then [GetContext chapter_num] else [].

(** The calls the ordering of persistence and indexing is about. *)
Definition is_milestone (ev : event) : bool := is_saved ev || is_index ev.

(** What [dec] prints: digits, after a minus sign at most. *)
Definition dec_char (c : char) : Prop := c = 45%N \/ (48 <= c <= 57)%N.

(** The word that opens the context label. *)
Definition prompt_marker : str := u "IMPORTANT".

(** Calls that change the filesystem. *)
Definition is_fs (e : event) : bool :=
  match e with
  | Mkdir _ | OpenW _ | Write _ _ | Saved _ _ => true
  | _ => false
  end.

(** The store handle an invocation opens. *)
Definition handle_of (env : Env) (book_dir : str) : BookEmbeddings :=
  {| project_dir := book_dir; connected := backend_available env |}.

(** The first refusal, if any, met while persisting [content] at [p]:
    making the parent directory, opening the file, writing it. *)
Definition persist_fault (env : Env) (p : Path) (content : str) : option exn :=
  match mkdir_fault env (to_str (parent p)) with
  | Some e => Some e
  | None =>
    match open_fault env (to_str p) with
    | Some e => Some e
    | None => fst <$> write_fault env (to_str p) content
    end
  end.

(** The number of whitespace-delimited tokens, counted where they start:
    a token starts at a non-whitespace character that is first or follows
    a whitespace character.  [prev_space] tells whether the previous
    character was whitespace (or there was none). *)
Fixpoint count_tokens_from (prev_space : bool) (s : str) : nat :=
  match s with
  | [] => O
  | c :: r =>
    ((if prev_space && negb (is_space c) then 1 else 0)
     + count_tokens_from (is_space c) r)%nat
  end.

Definition count_tokens (s : str) : nat := count_tokens_from true s.

(** What [call_ai] returns, read off the outcome of the provider's CLI. *)
Definition ai_reply (env : Env) (prompt provider : str) : option str :=
  match cli_outcome env provider prompt with
  | Some (Completed 0 out _) => Some (strip out)
  | _ => None
  end.

(** The context an invocation retrieves in world [w]: the store is asked
    only for chapters after the first. *)
Definition context_for {V} (env : Env) (backend : Backend V)
    (chapter_num : Z) (book_dir : str) (w : World V) : str :=
  if 1 <? chapter_num
  then context_of backend (collection (handle_of env book_dir) w) chapter_num
  else [].

(** The prompt an invocation composes in world [w]. *)
Definition prompt_for {V} (env : Env) (backend : Backend V)
    (chapter_num : Z) (chapter_title outline book_dir : str) (w : World V)
  : str :=
  build_prompt chapter_num chapter_title outline
               (context_for env backend chapter_num book_dir w).

(* --------------------------------------------------------------------- *)
(** *** Scenarios *)
(* --------------------------------------------------------------------- *)

(** A backend with trivial vectors, enough to run the store. *)
Definition unit_backend : Backend unit :=
  {| embed := fun _ => tt;
     embed_limit := 512;
     query_for := fun _ _ => tt;
     similarity := fun _ _ => 0;
     excerpt := fun n e =>
       u "Chapter " ++ dec n ++ u ": " ++ title (metadata e) ++ nl;
     max_excerpts := 3 |}.

Definition empty_world : World unit :=
  {| files := ∅; dirs := ∅; stores := ∅; trace := [] |}.

(** Every CLI exits with status 0 and prints [out]; the filesystem never
    refuses; the embedding backend is there. *)
Definition env_replying (out : str) : Env :=
  {| subprocess_run := fun _ _ => Completed 0 out [];
     mkdir_fault := fun _ => None;
     open_fault := fun _ => None;
     write_fault := fun _ _ => None;
     backend_available := true |}.

(** Every CLI exits with status 1. *)
Definition env_failing : Env :=
  {| subprocess_run := fun _ _ => Completed 1 [] (u "boom");
     mkdir_fault := fun _ => None;
     open_fault := fun _ => None;
     write_fault := fun _ _ => None;
     backend_available := true |}.

(** The [claude] CLI exits with status 1, the [gemini] CLI replies. *)
Definition env_claude_down : Env :=
  {| subprocess_run := fun argv _ =>
       match argv with
       | a :: _ =>
         if decide (a = u "gemini") then Completed 0 (u "texto") []
         else Completed 1 [] (u "boom")
       | [] => Completed 1 [] (u "boom")
       end;
     mkdir_fault := fun _ => None;
     open_fault := fun _ => None;
     write_fault := fun _ _ => None;
     backend_available := true |}.

(** The CLIs reply, the embedding backend is missing, and the filesystem
    refuses to open files for writing. *)
Definition env_read_only : Env :=
  {| subprocess_run := fun _ _ => Completed 0 (u "texto") [];
     mkdir_fault := fun _ => None;
     open_fault := fun _ => Some (MkExn OSError (u "Permission denied"));
     write_fault := fun _ _ => None;
     backend_available := false |}.

(** The CLIs reply, files open, and the write fails with nothing on
    disk. *)
Definition env_disk_full : Env :=
  {| subprocess_run := fun _ _ => Completed 0 (u "texto") [];
     mkdir_fault := fun _ => None;
     open_fault := fun _ => None;
     write_fault := fun _ _ =>
       Some (MkExn OSError (u "No space left on device"), []);
     backend_available := true |}.

(** The CLIs reply, the filesystem works, the embedding backend is
    missing. *)
Definition env_no_backend : Env :=
  {| subprocess_run := fun _ _ => Completed 0 (u "texto") [];
     mkdir_fault := fun _ => None;
     open_fault := fun _ => None;
     write_fault := fun _ _ => None;
     backend_available := false |}.

(* --------------------------------------------------------------------- *)
(** *** The callers: what they return, and their scenarios *)
(* --------------------------------------------------------------------- *)

(** The papers [search_papers] returns: what arXiv finds when it is
    among the databases, nothing otherwise. *)
Definition found_papers (renv : ResearchEnv) (query : str)
    (databases : list str) (limit : Z) : list Paper :=
  if listed (u "arxiv") databases then
    match arxiv_search renv query (limit / Z.of_nat (length databases)) with
    | ArxivFinds results => List.map paper_of_result results
    | _ => []
    end
  else [].

(** The prompt [synthesize_with_ai] sends for its papers. *)
Definition synthesis_request (papers : list Paper) (query : str) : str :=
  synthesis_prompt query
    (join (nl ++ nl) (List.map paper_block (firstn 10 papers))).

(** The text [synthesize_with_ai] returns, read off the replies of the
    two providers. *)
Definition synthesis_of (env : Env) (papers : list Paper) (query : str) : str :=
  match papers with
  | [] => u "No papers found to synthesize."
  | _ :: _ =>
    match ai_reply env (synthesis_request papers query) (u "claude") with
    | Some ((_ :: _) as response) => response
    | _ =>
      match ai_reply env (synthesis_request papers query) (u "gemini") with
      | Some ((_ :: _) as response) => response
      | _ => create_basic_summary papers
      end
    end
  end.

(** The subprocesses [synthesize_with_ai] runs. *)
Definition synthesis_runs (env : Env) (papers : list Paper) (query : str)
  : list event :=
  match papers with
  | [] => []
  | _ :: _ =>
    Run [u "claude"; u "--print"] (Some (synthesis_request papers query)) 120
    :: (if falsy (ai_reply env (synthesis_request papers query) (u "claude"))
        then [Run [u "gemini"; synthesis_request papers query] None 120]
        else [])
  end.

(** The report [save_research_results] writes. *)
Definition report_text (renv : ResearchEnv) (synthesis query : str) : str :=
  (u "# Research Synthesis" ++ nl ++ nl) ++
  (u "**Query:** " ++ query ++ nl ++ nl) ++
  (u "**Date:** " ++ current_date renv ++ nl ++ nl) ++
  (u "---" ++ nl ++ nl) ++
  synthesis.

(** The [arxiv] package is not installed. *)
Definition renv_no_arxiv : ResearchEnv :=
  {| arxiv_search := fun _ _ => ArxivMissing;
     current_date := u "2024-01-15" |}.

(** arXiv finds one paper for every query. *)
Definition renv_one_paper : ResearchEnv :=
  {| arxiv_search := fun _ _ =>
       ArxivFinds [{| r_title := u "Attention";
                      r_authors := [u "A. Author"];
                      r_summary := u "Abstract.";
                      r_entry_id := u "http://arxiv.org/abs/1";
                      r_year := 2017 |}];
     current_date := u "2024-01-15" |}.

(** The arguments [research "llm" --databases arxiv pubmed --limit 20]. *)
Definition args_example : ResearchArgs :=
  {| query := u "llm"; databases := [u "arxiv"; u "pubmed"]; limit := 20 |}.

(** A paper as [search_arxiv] builds it. *)
Definition paper_example : Paper :=
  paper_of_result
    {| r_title := u "Attention";
       r_authors := [u "A. Author"];
       r_summary := u "Abstract.";
       r_entry_id := u "http://arxiv.org/abs/1";
       r_year := 2017 |}.

(** A parser that refuses every text. *)
Definition loads_refusing : str -> loads_outcome Empty_set :=
  fun _ => DecodeError (u "Expecting value").

(** The CLIs print only a line break. *)
Definition env_blank : Env := env_replying nl.

(** The CLIs reply, files open, and the write fails after four
    characters reached the disk. *)
Definition env_disk_fills : Env :=
  {| subprocess_run := fun _ _ => Completed 0 (u "texto nuevo") [];
     mkdir_fault := fun _ => None;
     open_fault := fun _ => None;
     write_fault := fun _ _ =>
       Some (MkExn OSError (u "No space left on device"), u "text");
     backend_available := true |}.

(** A world in which the first chapter is already on disk. *)
Definition world_with_chapter : World unit :=
  {| files := {[ u "outputs/chapters/chapter01_intro.md" := u "texto viejo" ]};
     dirs := ∅; stores := ∅; trace := [] |}.

(** [int(s)] for a string of decimal digits, with a minus sign at most;
    zero for any other string. *)
Definition read_int (s : str) : Z :=
  match NilZero.int_of_string
          (string_of_list_ascii (List.map ascii_of_N s)) with
  | Some d => Z.of_int d
  | None => 0
  end.

(* ===================================================================== *)
(** ** Strings and paths *)
(* ===================================================================== *)

Example utf8_decode_A_acute : u "Á" = [193%N].
Proof. reflexivity. Qed.

Example utf8_decode_check_mark : u "✓" = [10003%N].
Proof. reflexivity. Qed.

Example strip_example : strip (u "  hola mundo
 ") = u "hola mundo".
Proof. reflexivity. Qed.

Example split_example : split (u " uno  dos
tres ") = [u "uno"; u "dos"; u "tres"].
Proof. reflexivity. Qed.

Example dec_examples :
  dec 0 = u "0" /\ dec 42 = u "42" /\ dec (-7) = u "-7" /\
  dec02 3 = u "03" /\ dec02 12 = u "12" /\ dec02 123 = u "123" /\
  dec02 (-5) = u "-5" /\ dec02 0 = u "00".
Proof. repeat split; reflexivity. Qed.

Example dec_comma_examples :
  dec_comma 0 = u "0" /\ dec_comma 999 = u "999" /\
  dec_comma 1000 = u "1,000" /\ dec_comma 1234567 = u "1,234,567" /\
  dec_comma 123456 = u "123,456".
Proof. repeat split; reflexivity. Qed.

Example output_path_examples :
  to_str (output_path_of ascii_lower (u ".") 3 (u "Deep Work"))
  = u "outputs/chapters/chapter03_deep_work.md"
  /\ to_str (output_path_of ascii_lower (u "/srv/libro/") 12 (u "A/B"))
    = u "/srv/libro/outputs/chapters/chapter12_a/b.md"
  /\ to_str (parent (output_path_of ascii_lower (u "") 1 (u "Intro")))
    = u "outputs/chapters".
Proof. repeat split; vm_compute; reflexivity. Qed.

Example count_tokens_example :
  count_tokens (u " uno  dos
tres ") = 3%nat.
Proof. reflexivity. Qed.

Section StringFacts.

Implicit Types (s x pre post : str) (c : char).

(** [split] yields as many tokens as there are token starts. *)
Lemma split_from_length cur s :
  length (split_from cur s) =
  match cur with
  | [] => count_tokens_from true s
  | _ => S (count_tokens_from false s)
  end.
Proof.
  revert cur. induction s as [|c r IH]; intros cur; simpl.
  - by destruct cur.
  - destruct (is_space c) eqn:Hc; simpl.
    + destruct cur; simpl; by rewrite IH.
    + rewrite IH. by destruct cur.
Qed.

Lemma split_length s : length (split s) = count_tokens s.
Proof. unfold split, count_tokens. by rewrite split_from_length. Qed.

Lemma infix_here x post : infix x (x ++ post).
Proof. by exists [], post. Qed.

Lemma infix_skip x pre s : infix x s -> infix x (pre ++ s).
Proof.
  intros (a & b & ->). exists (pre ++ a), b. by rewrite <- app_assoc.
Qed.

Lemma infix_refl x : infix x x.
Proof. exists [], []. cbn [app]. by rewrite List.app_nil_r. Qed.

Lemma infix_trans x y s : infix x y -> infix y s -> infix x s.
Proof.
  intros (a & b & ->) (c & d & ->).
  exists (c ++ a), (b ++ d). by rewrite <- !List.app_assoc.
Qed.

Lemma starts_here x post : starts_with x (x ++ post).
Proof. by exists post. Qed.

Lemma starts_app a x s : starts_with x s -> starts_with (a ++ x) (a ++ s).
Proof. intros [post ->]. exists post. by rewrite <- List.app_assoc. Qed.

Lemma starts_infix x s : starts_with x s -> infix x s.
Proof. intros [post ->]. by exists [], post. Qed.

Lemma infix_In x s c : infix x s -> In c x -> In c s.
Proof.
  intros (a & b & ->) Hc. apply in_or_app. right. apply in_or_app. by left.
Qed.

Lemma prefixb_app x post : prefixb x (x ++ post) = true.
Proof.
  induction x as [|a x IH]; simpl; [done|].
  by rewrite N.eqb_refl, IH.
Qed.

Lemma infixb_complete x s : infix x s -> infixb x s = true.
Proof.
  intros (a & b & ->). induction a as [|c a IH].
  - rewrite app_nil_l.
    assert (forall y, infixb x y = prefixb x y
                      || match y with [] => false | _ :: y' => infixb x y' end)
      as -> by (by intros []).
    by rewrite prefixb_app.
  - simpl. rewrite IH. apply orb_true_r.
Qed.

(** A string free of the character [c] lies on one side of it. *)
Lemma infix_sep x a c b :
  ~ In c x -> infix x (a ++ c :: b) -> infix x a \/ infix x b.
Proof.
  intros Hc (pre & post & E).
  apply app_eq_app in E as [l [[-> E]|[-> E]]].
  - symmetry in E.
    apply app_eq_app in E as [l' [[-> E]|[-> E]]].
    + left. by exists pre, l'.
    + destruct l' as [|c' l'].
      * left. rewrite app_nil_r. exists pre, []. by rewrite app_nil_r.
      * injection E as -> _. exfalso. apply Hc.
        apply in_or_app. right. by left.
  - destruct l as [|c' l]; simpl in E.
    + destruct x as [|c' x]; simpl in E.
      * left. exists a, []. by rewrite app_nil_r.
      * injection E as -> _. exfalso. apply Hc. by left.
    + injection E as _ ->. right. by exists l, post.
Qed.

Lemma uint_chars (d : Decimal.uint) :
  Forall dec_char
    (List.map N_of_ascii (list_ascii_of_string (NilEmpty.string_of_uint d))).
Proof.
  induction d; simpl; [constructor|..];
    (constructor; [unfold dec_char; right; simpl; lia | assumption]).
Qed.

Lemma dec_chars n : Forall dec_char (dec n).
Proof.
  unfold dec, NilZero.string_of_int, NilZero.string_of_uint.
  destruct (Z.to_int n) as [d|d]; simpl.
  - destruct d; try apply uint_chars.
    constructor; [right; simpl; lia | constructor].
  - constructor; [by left|].
    destruct d; try apply uint_chars.
    constructor; [right; simpl; lia | constructor].
Qed.

Lemma dec_no_char c n : c <> 45%N -> ~ (48 <= c <= 57)%N -> ~ In c (dec n).
Proof.
  intros H1 H2 Hin.
  pose proof (dec_chars n) as HF. rewrite Forall_forall in HF.
  destruct (HF c) as [?|?]; [|done..].
  by apply list_elem_of_In.
Qed.

(** Replacing one character by one character is a pointwise map. *)
Lemma replace_char_map old new s :
  replace_char old [new] s =
  List.map (fun c => if (c =? old)%N then new else c) s.
Proof.
  unfold replace_char. induction s as [|c s IH]; simpl; [done|].
  rewrite IH. by destruct (c =? old)%N.
Qed.

(** A name without a slash is a single path segment. *)
Lemma segments_from_no_slash cur s :
  ~ In 47%N s -> segments_from cur s = [rev cur ++ s].
Proof.
  revert cur. induction s as [|c s IH]; intros cur Hs; simpl.
  - by rewrite app_nil_r.
  - destruct (c =? 47)%N eqn:Hc.
    + apply N.eqb_eq in Hc. subst c. exfalso. apply Hs. by left.
    + rewrite IH; [|intros Hin; apply Hs; by right].
      simpl. by rewrite <- app_assoc.
Qed.

Lemma parse_no_slash c1 c2 s :
  ~ In 47%N (c1 :: c2 :: s) ->
  parse (c1 :: c2 :: s) = {| root := []; parts := [c1 :: c2 :: s] |}.
Proof.
  intros Hs. unfold parse.
  rewrite segments_from_no_slash by done. simpl.
  assert (c1 <> 47%N) as H1 by (intros ->; apply Hs; by left).
  unfold parse_root.
  destruct c1 as [|p]; [done|].
  repeat (destruct p as [p|p|]; try done).
Qed.

Lemma join_snoc sep (ps : list str) x :
  ps <> [] -> join sep (ps ++ [x]) = join sep ps ++ sep ++ x.
Proof.
  induction ps as [|a ps IH]; intros Hne; [done|].
  destruct ps as [|b ps]; [done|].
  change (join sep ((a :: b :: ps) ++ [x]))
    with (a ++ sep ++ join sep ((b :: ps) ++ [x])).
  rewrite IH by done.
  change (join sep (a :: b :: ps)) with (a ++ sep ++ join sep (b :: ps)).
  by rewrite <- !app_assoc.
Qed.

End StringFacts.

(* ===================================================================== *)
(** ** Worlds and traces *)
(* ===================================================================== *)

Section Facts.

Context {V : Type}.
Implicit Types (w : World V) (t : list event) (e : event).

Lemma log_logs e w : log e w = logs [e] w.
Proof. reflexivity. Qed.

Lemma logs_logs t1 t2 w : logs t2 (logs t1 w) = logs (t1 ++ t2) w.
Proof. unfold logs; simpl. by rewrite <- app_assoc. Qed.

Lemma set_files_logs f t w : set_files f (logs t w) = logs t (set_files f w).
Proof. reflexivity. Qed.

Lemma set_dirs_logs d t w : set_dirs d (logs t w) = logs t (set_dirs d w).
Proof. reflexivity. Qed.

Lemma set_stores_logs s t w : set_stores s (logs t w) = logs t (set_stores s w).
Proof. reflexivity. Qed.

Lemma filter_prints (P : event -> bool) (msgs : list str) :
  (forall s, P (Print s) = false) ->
  List.filter P (List.map Print msgs) = [].
Proof.
  intros HP. induction msgs as [|m msgs IH]; simpl; [done|].
  by rewrite HP.
Qed.

(* --------------------------------------------------------------------- *)
(** *** The AI client *)
(* --------------------------------------------------------------------- *)

Lemma call_claude_cli_eq env prompt w :
  call_claude_cli env prompt w =
  (match subprocess_run env [u "claude"; u "--print"] (Some prompt) with
   | Completed 0 out _ => Ok (strip out)
   | Completed _ _ err =>
     Raise (Exception_ (u "Claude CLI error: " ++ u "Claude CLI error: " ++ err))
   | RunRaises e =>
     match exn_kind e with
     | TimeoutExpired => Raise (Exception_ (u "Claude CLI timeout"))
     | FileNotFoundError =>
       Raise (Exception_ (u "Claude CLI not found. Install with: npm install -g @anthropic-ai/claude-cli"))
     | _ => Raise (Exception_ (u "Claude CLI error: " ++ exn_str e))
     end
   end,
   logs [Run [u "claude"; u "--print"] (Some prompt) 120] w).
Proof.
  unfold call_claude_cli, try_except, mbind, M_bind, bind, run.
  destruct (subprocess_run env _ _) as [rc out err|e]; simpl.
  - destruct rc; reflexivity.
  - destruct (exn_kind e); reflexivity.
Qed.

Lemma call_gemini_cli_eq env prompt w :
  call_gemini_cli env prompt w =
  (match subprocess_run env [u "gemini"; prompt] None with
   | Completed 0 out _ => Ok (strip out)
   | Completed _ _ err =>
     Raise (Exception_ (u "Gemini CLI error: " ++ u "Gemini CLI error: " ++ err))
   | RunRaises e =>
     match exn_kind e with
     | TimeoutExpired => Raise (Exception_ (u "Gemini CLI timeout"))
     | FileNotFoundError =>
       Raise (Exception_ (u "Gemini CLI not found. Install Gemini CLI first"))
     | _ => Raise (Exception_ (u "Gemini CLI error: " ++ exn_str e))
     end
   end,
   logs [Run [u "gemini"; prompt] None 120] w).
Proof.
  unfold call_gemini_cli, try_except, mbind, M_bind, bind, run.
  destruct (subprocess_run env _ _) as [rc out err|e]; simpl.
  - destruct rc; reflexivity.
  - destruct (exn_kind e); reflexivity.
Qed.

(** [call_ai] always returns; it logs its own call, the provider's
    subprocess if the provider is known, and an error line on failure. *)
Lemma call_ai_spec env prompt provider max_tokens w :
  exists msgs,
    call_ai env prompt provider max_tokens w =
    (Ok (ai_reply env prompt provider),
     logs (CallAI prompt provider max_tokens
             :: cli_runs provider prompt ++ List.map Print msgs) w).
Proof.
  unfold call_ai, ai_reply, cli_outcome, cli_runs, cli_request.
  unfold try_except, mbind, M_bind, bind, emit, print, emit, mret, M_ret, ret.
  rewrite log_logs.
  destruct (decide (provider = u "claude")) as [->|Hc].
  - rewrite call_claude_cli_eq, logs_logs.
    destruct (subprocess_run env _ _) as [rc out err|e].
    + destruct rc; [exists []; reflexivity| |]; eexists [_];
        rewrite log_logs, logs_logs; reflexivity.
    + destruct (exn_kind e); eexists [_]; rewrite log_logs, logs_logs; reflexivity.
  - destruct (decide (provider = u "gemini")) as [->|Hg].
    + rewrite call_gemini_cli_eq, logs_logs.
      destruct (subprocess_run env _ _) as [rc out err|e].
      * destruct rc; [exists []; reflexivity| |]; eexists [_];
          rewrite log_logs, logs_logs; reflexivity.
      * destruct (exn_kind e); eexists [_]; rewrite log_logs, logs_logs; reflexivity.
    + unfold raise. eexists [_]. rewrite log_logs, logs_logs. reflexivity.
Qed.

Lemma filter_cli_runs (P : event -> bool) provider prompt :
  (forall a i n, P (Run a i n) = false) ->
  List.filter P (cli_runs provider prompt) = [].
Proof.
  intros HP. unfold cli_runs.
  destruct (cli_request provider prompt) as [[argv input]|]; simpl; [|done].
  by rewrite HP.
Qed.

Lemma filter_calls (P : event -> bool) t :
  (forall s, P (Print s) = false) ->
  List.filter P t = List.filter P (calls t).
Proof.
  intros HP. unfold calls. induction t as [|e t IH]; simpl; [done|].
  destruct e; simpl; rewrite ?HP, IH; reflexivity.
Qed.

Lemma calls_In e t : is_print e = false -> In e (calls t) -> In e t.
Proof. unfold calls. rewrite filter_In. tauto. Qed.

Lemma In_calls e t : is_print e = false -> In e t -> In e (calls t).
Proof. intros He Hin. unfold calls. rewrite filter_In, He. done. Qed.

Lemma calls_cli_runs provider prompt :
  calls (cli_runs provider prompt) = cli_runs provider prompt.
Proof.
  unfold calls, cli_runs.
  by destruct (cli_request provider prompt) as [[argv input]|].
Qed.

Lemma filter_run_cli_runs provider prompt :
  List.filter is_run (cli_runs provider prompt) = cli_runs provider prompt.
Proof.
  unfold cli_runs.
  by destruct (cli_request provider prompt) as [[argv input]|].
Qed.

(** In a trace whose only save and index calls are one save followed by at
    most one index call, an index call comes after the save and carries
    the saved text. *)
Lemma saved_before_index t p c rest t1 t2 n' c' m' :
  List.filter is_milestone t = Saved p c :: rest ->
  (rest = [] \/ exists n m, rest = [IndexChapter n c m]) ->
  t = t1 ++ IndexChapter n' c' m' :: t2 ->
  In (Saved p c) t1 /\ c' = c.
Proof.
  intros Hfil Hrest ->.
  rewrite List.filter_app in Hfil. simpl in Hfil.
  destruct (List.filter is_milestone t1) as [|y l] eqn:Ht1; simpl in Hfil.
  - discriminate Hfil.
  - injection Hfil as -> Hl. split.
    + assert (In (Saved p c) (List.filter is_milestone t1)) as Hin
        by (rewrite Ht1; by left).
      apply filter_In in Hin. tauto.
    + destruct Hrest as [->|(n & m & ->)].
      * by destruct l.
      * destruct l as [|z l]; simpl in Hl.
        -- by injection Hl as _ -> _.
        -- injection Hl as _ Hl. by destruct l.
Qed.

Lemma no_index_no_split t t1 t2 n c m :
  List.filter is_index t = [] -> t <> t1 ++ IndexChapter n c m :: t2.
Proof.
  intros Hfil ->. rewrite List.filter_app in Hfil. simpl in Hfil.
  by destruct (List.filter is_index t1).
Qed.

Lemma collection_logs (h : BookEmbeddings) t w :
  collection h (logs t w) = collection h w.
Proof. reflexivity. Qed.

Lemma call_ai_returns env prompt provider max_tokens w :
  fst (call_ai env prompt provider max_tokens w) = Ok (ai_reply env prompt provider).
Proof. destruct (call_ai_spec env prompt provider max_tokens w) as [msgs ->]. done. Qed.

Lemma cli_request_unknown provider prompt :
  provider <> u "claude" -> provider <> u "gemini" ->
  cli_request provider prompt = None.
Proof.
  intros Hc Hg. unfold cli_request.
  destruct (decide (provider = u "claude")); [done|].
  destruct (decide (provider = u "gemini")); done.
Qed.

(** C10. [call_ai] never raises, whatever the prompt and the provider.
    It returns the stripped standard output of the provider's CLI when the
    CLI exits with status 0, and [None] on every failure: a provider other
    than claude and gemini, an exception of [subprocess.run] (missing
    binary, timeout, any other), a non-zero exit status. *)
Theorem call_ai_never_raises env prompt provider max_tokens w :
  exists r w',
    call_ai env prompt provider max_tokens w = (Ok r, w')
    /\ (forall argv input out err,
          cli_request provider prompt = Some (argv, input) ->
          subprocess_run env argv input = Completed 0 out err ->
          r = Some (strip out))
    /\ (provider <> u "claude" -> provider <> u "gemini" -> r = None)
    /\ (forall argv input (ex : exn),
          cli_request provider prompt = Some (argv, input) ->
          subprocess_run env argv input = RunRaises ex ->
          r = None)
    /\ (forall argv input rc out err,
          cli_request provider prompt = Some (argv, input) ->
          subprocess_run env argv input = Completed rc out err ->
          rc <> 0 ->
          r = None).
Proof.
  destruct (call_ai_spec env prompt provider max_tokens w) as [msgs Heq].
  do 2 eexists. split; [exact Heq|].
  unfold ai_reply, cli_outcome. repeat split.
  - intros argv input out err -> ->. reflexivity.
  - intros Hc Hg. by rewrite cli_request_unknown.
  - intros argv input ex -> ->. reflexivity.
  - intros argv input rc out err -> -> Hrc. destruct rc; [done| |]; reflexivity.
Qed.

End Facts.

Lemma call_ai_never_raises_witness :
  fst (call_ai (env_replying (u " hola ")) (u "Di hola") (u "claude") 4000
               empty_world) = Ok (Some (u "hola"))
  /\ fst (call_ai env_failing (u "Di hola") (u "gemini") 4000 empty_world)
     = Ok None
  /\ fst (call_ai env_failing (u "Di hola") (u "gpt") 4000 empty_world)
     = Ok None.
Proof.
  split; [|split].
  - destruct (call_ai_never_raises (env_replying (u " hola ")) (u "Di hola")
                (u "claude") 4000 empty_world)
      as (r & w' & Heq & Hok & _).
    rewrite Heq. simpl. f_equal.
    apply (Hok [u "claude"; u "--print"] (Some (u "Di hola")) (u " hola ") []);
      reflexivity.
  - destruct (call_ai_never_raises env_failing (u "Di hola")
                (u "gemini") 4000 empty_world)
      as (r & w' & Heq & _ & _ & _ & Hrc).
    rewrite Heq. simpl. f_equal.
    apply (Hrc [u "gemini"; u "Di hola"] None 1 [] (u "boom"));
      [reflexivity | reflexivity | lia].
  - destruct (call_ai_never_raises env_failing (u "Di hola")
                (u "gpt") 4000 empty_world)
      as (r & w' & Heq & _ & Hunk & _).
    rewrite Heq. simpl. f_equal.
    apply Hunk; vm_compute; discriminate.
Defined.

(* ===================================================================== *)
(** ** The generator, case by case *)
(* ===================================================================== *)

Ltac gen_unfold :=
  cbv beta iota zeta delta
    [generate_chapter_with_coherence mbind M_bind bind mret M_ret ret
     print emit BookEmbeddings_init get_chapter_context].

Ltac gen_call_ai :=
  match goal with
  | |- context [call_ai ?e ?p ?pr ?mt ?w] =>
    let msgs := fresh "msgs" in
    let Hai := fresh "Hai" in
    destruct (call_ai_spec e p pr mt w) as [msgs Hai];
    rewrite Hai; clear Hai
  end.

Ltac norm_world :=
  repeat (rewrite log_logs || rewrite logs_logs || rewrite collection_logs
          || rewrite set_files_logs || rewrite set_dirs_logs
          || rewrite set_stores_logs);
  cbn [app].

Ltac world_simpl :=
  cbn [files dirs stores trace log logs set_files set_dirs set_stores
       connected project_dir fst snd] in *.

(** Split an invocation into its runs: context asked or not, the reply
    of the AI client, the filesystem refusals, the store connected or not. *)
Ltac gen_head Hn :=
  gen_unfold;
  destruct (1 <? _) eqn:Hn; norm_world; gen_call_ai; norm_world.

Ltac gen_reply Hreply :=
  match goal with
  | |- context [ai_reply ?e ?p ?pr] =>
    destruct (ai_reply e p pr) as [[|? ?]|] eqn:Hreply
  end;
  cbv beta iota; norm_world.

Ltac gen_persist :=
  try (cbv beta iota zeta delta [mkdir_parents]; norm_world;
       destruct (mkdir_fault _ _) eqn:?; cbv beta iota; norm_world;
       try (cbv beta iota zeta delta [write_text]; norm_world;
            destruct (open_fault _ _) eqn:?; cbv beta iota; norm_world;
            try (destruct (write_fault _ _ _) as [[? ?]|] eqn:?;
                 cbv beta iota; norm_world;
                 try (cbv beta iota zeta delta [index_chapter collection connected];
                      destruct (backend_available _) eqn:?;
                      cbv beta iota; norm_world)))).

Ltac gen_cases Hn Hreply := gen_head Hn; gen_reply Hreply; gen_persist.

(** Filters over the trace of an invocation. *)
Ltac trace_filter :=
  unfold calls;
  repeat (cbn [List.filter is_index is_fs is_run is_get_context is_print
               is_saved negb app]
          || rewrite List.filter_app
          || (rewrite filter_prints by done)
          || (rewrite filter_cli_runs by done)
          || rewrite (calls_cli_runs : forall a b, List.filter _ _ = _)
          || rewrite filter_run_cli_runs
          || rewrite app_nil_r);
  rewrite <- ?List.app_assoc; cbn [app].

(** Membership in the trace of an invocation. *)
Ltac trace_In :=
  rewrite <- ?List.app_assoc; cbn [app In];
  repeat (rewrite in_app_iff; cbn [In]);
  repeat (first [left; reflexivity | right]).

Section Generator.

Context {V : Type} (lower : str -> str) (env : Env) (backend : Backend V).
Context (chapter_num : Z) (chapter_title outline book_dir provider : str).
Implicit Types (w : World V) (t : list event).

#[local] Abbreviation generate :=
  (generate_chapter_with_coherence lower env backend
     chapter_num chapter_title outline book_dir provider).
#[local] Abbreviation prompt :=
  (prompt_for env backend chapter_num chapter_title outline book_dir).
#[local] Abbreviation path :=
  (output_path_of lower book_dir chapter_num chapter_title).

Lemma prompt_for_first w : chapter_num <= 1 ->
  prompt w = build_prompt chapter_num chapter_title outline [].
Proof.
  intros Hfirst. unfold prompt_for, context_for.
  assert ((1 <? chapter_num) = false) as -> by (apply Z.ltb_ge; lia).
  reflexivity.
Qed.

(** The run of an invocation whose AI call yields nothing usable. *)
Lemma generate_on_falsy w :
  falsy (ai_reply env (prompt w) provider) = true ->
  exists w' t,
    generate w = (Ok None, w')
    /\ files w' = files w /\ dirs w' = dirs w /\ stores w' = stores w
    /\ trace w' = trace w ++ t
    /\ calls t = OpenStore book_dir :: context_calls chapter_num
                  ++ CallAI (prompt w) provider 8000
                  :: cli_runs provider (prompt w).
Proof.
  unfold prompt_for, context_for, context_calls, handle_of.
  intros Hfalsy.
  gen_cases Hn Hreply; try discriminate Hfalsy.
  all: do 2 eexists; split; [reflexivity|]; world_simpl.
  all: repeat split; trace_filter; reflexivity.
Qed.

(** The run of an invocation whose AI call yields a non-empty text:
    the text is persisted, then indexed if the store is connected; the
    first refusal of the filesystem ends the run with its exception. *)
Lemma generate_on_reply w content :
  ai_reply env (prompt w) provider = Some content ->
  truthy content = true ->
  let word_count := Z.of_nat (length (split content)) in
  let meta := {| title := chapter_title; word_count := word_count |} in
  exists w' t,
    generate w =
      (match persist_fault env path content with
       | Some ex => Raise ex
       | None => Ok (Some content)
       end, w')
    /\ trace w' = trace w ++ t
    /\ List.filter is_run t = cli_runs provider (prompt w)
    /\ List.filter is_get_context t = context_calls chapter_num
    /\ In (CallAI (prompt w) provider 8000) t
    /\ (persist_fault env path content <> None ->
        stores w' = stores w /\ List.filter is_index t = [])
    /\ (persist_fault env path content = None ->
        files w' = <[to_str path := content]> (<[to_str path := []]> (files w))
        /\ stores w' =
             (if backend_available env then
                <[book_dir :=
                    <[chapter_num :=
                        {| embedding_vector :=
                             embed backend (firstn (embed_limit backend) content);
                           metadata := meta |}]>
                      (default ∅ (stores w !! book_dir))]> (stores w)
              else stores w)
        /\ In (Print (u "  ✓ Word count: " ++ dec_comma word_count)) t
        /\ calls t =
             OpenStore book_dir :: context_calls chapter_num
             ++ CallAI (prompt w) provider 8000 :: cli_runs provider (prompt w)
             ++ [Mkdir (to_str (parent path)); OpenW (to_str path);
                 Write (to_str path) content; Saved (to_str path) content]
             ++ (if backend_available env
                 then [IndexChapter chapter_num content meta] else [])).
Proof.
  cbv zeta.
  unfold prompt_for, context_for, context_calls, handle_of, persist_fault.
  intros Hreply Htruthy.
  destruct content as [|c content]; [discriminate Htruthy|].
  gen_head Hn; cbv iota in Hreply; rewrite Hreply; cbv beta iota; norm_world;
    gen_persist.
  all: cbn [fmap option_fmap option_map fst].
  all: do 2 eexists; split; [reflexivity|]; world_simpl.
  all: split; [reflexivity|].
  all: split; [trace_filter; reflexivity|].
  all: split; [trace_filter; reflexivity|].
  all: split; [simpl; tauto|].
  all: split; [intros Hfault;
               first [by destruct Hfault
                     | split; [reflexivity | trace_filter; reflexivity]]
              | intros Hfault; try discriminate Hfault].
  all: split; [reflexivity|].
  all: split; [reflexivity|].
  all: split; [|trace_filter; reflexivity].
  all: trace_In.
Qed.

Lemma reply_cases (r : option str) :
  falsy r = true \/ exists content, r = Some content /\ truthy content = true.
Proof. destruct r as [[|c content]|]; simpl; eauto. Qed.

Lemma filter_context_calls (P : event -> bool) :
  (forall k, P (GetContext k) = false) ->
  List.filter P (context_calls chapter_num) = [].
Proof.
  intros HP. unfold context_calls. destruct (1 <? chapter_num); simpl; [|done].
  by rewrite HP.
Qed.

(** An invocation that returns a text got it from the AI client and met
    no refusal while persisting it. *)
Lemma generate_returns_some w content w' :
  generate w = (Ok (Some content), w') ->
  ai_reply env (prompt w) provider = Some content
  /\ truthy content = true
  /\ persist_fault env path content = None.
Proof.
  intros Hgen.
  destruct (reply_cases (ai_reply env (prompt w) provider))
    as [Hfalsy|(txt & Hreply & Htruthy)].
  - destruct (generate_on_falsy w Hfalsy) as (w1 & t & Heq & _).
    rewrite Heq in Hgen. discriminate Hgen.
  - destruct (generate_on_reply w txt Hreply Htruthy) as (w1 & t & Heq & _).
    rewrite Heq in Hgen.
    destruct (persist_fault env path txt) eqn:Hfault; [discriminate Hgen|].
    injection Hgen as -> _. done.
Qed.

(** C1. When the call to the AI client yields a falsy result (no reply or
    an empty one), the generator returns [None], changes neither files,
    directories nor the store, and its trace holds no filesystem call and
    no [index_chapter] call. *)
Theorem generation_failure_no_effects w w0 r :
  fst (call_ai env (prompt w) provider 8000 w0) = Ok r ->
  falsy r = true ->
  exists w' t,
    generate w = (Ok None, w')
    /\ files w' = files w /\ dirs w' = dirs w /\ stores w' = stores w
    /\ trace w' = trace w ++ t
    /\ List.filter is_index t = [] /\ List.filter is_fs t = [].
Proof.
  rewrite call_ai_returns. intros [= <-] Hfalsy.
  destruct (generate_on_falsy w Hfalsy)
    as (w' & t & Heq & Hf & Hd & Hs & Ht & Hcalls).
  exists w', t. repeat (split; [assumption|]).
  rewrite (filter_calls is_index), (filter_calls is_fs), Hcalls by done.
  split; trace_filter; rewrite ?filter_context_calls by done; trace_filter;
    reflexivity.
Qed.

(** C4. An [index_chapter] call comes only after the chapter file has
    been saved with the same text, which is then on disk; and when
    persisting the generated text meets a refusal of the filesystem, the
    invocation ends with that exception, the store is unchanged and no
    [index_chapter] call was made. *)
Theorem index_only_after_write w :
  exists res w' t,
    generate w = (res, w')
    /\ trace w' = trace w ++ t
    /\ (forall t1 t2 n c m,
          t = t1 ++ IndexChapter n c m :: t2 ->
          In (Saved (to_str path) c) t1
          /\ files w' !! to_str path = Some c)
    /\ (forall w0 content ex,
          fst (call_ai env (prompt w) provider 8000 w0) = Ok (Some content) ->
          truthy content = true ->
          persist_fault env path content = Some ex ->
          res = Raise ex /\ stores w' = stores w
          /\ List.filter is_index t = []).
Proof.
  destruct (reply_cases (ai_reply env (prompt w) provider))
    as [Hfalsy|(txt & Hreply & Htruthy)].
  - destruct (generate_on_falsy w Hfalsy)
      as (w' & t & Heq & _ & _ & _ & Ht & Hcalls).
    assert (List.filter is_index t = []) as Hidx.
    { rewrite (filter_calls is_index), Hcalls by done.
      trace_filter; rewrite ?filter_context_calls by done; trace_filter;
        reflexivity. }
    exists (Ok None), w', t. split; [exact Heq|]. split; [exact Ht|]. split.
    + intros t1 t2 n c m Hsplit. exfalso. by eapply no_index_no_split.
    + intros w0 content ex Hcall Htr _.
      rewrite call_ai_returns in Hcall. injection Hcall as Hcall.
      rewrite Hcall in Hfalsy. simpl in Hfalsy. rewrite Htr in Hfalsy.
      discriminate Hfalsy.
  - destruct (generate_on_reply w txt Hreply Htruthy)
      as (w' & t & Heq & Ht & _ & _ & _ & Hbad & Hgood).
    do 3 eexists. split; [exact Heq|]. split; [exact Ht|]. split.
    + intros t1 t2 n c m Hsplit.
      destruct (persist_fault env path txt) as [ex|] eqn:Hfault.
      * destruct Hbad as [_ Hidx]; [done|].
        exfalso. by eapply no_index_no_split.
      * destruct Hgood as (Hfiles & _ & _ & Hcalls); [done|].
        assert (List.filter is_milestone t =
                Saved (to_str path) txt
                  :: (if backend_available env
                      then [IndexChapter chapter_num txt
                              {| title := chapter_title;
                                 word_count := Z.of_nat (length (split txt)) |}]
                      else [])) as Hmile.
        { rewrite (filter_calls is_milestone), Hcalls by done.
          unfold is_milestone.
          trace_filter; rewrite ?filter_context_calls by done;
            trace_filter.
          by destruct (backend_available env). }
        destruct (saved_before_index _ _ _ _ t1 t2 n c m Hmile) as [Hin ->];
          [destruct (backend_available env); eauto | exact Hsplit |].
        split; [exact Hin|].
        rewrite Hfiles. apply lookup_insert_eq.
    + intros w0 content ex Hcall Htr Hfault.
      rewrite call_ai_returns in Hcall. injection Hcall as Hcall.
      rewrite Hreply in Hcall. injection Hcall as <-.
      rewrite Hfault. destruct Hbad as [Hs Hidx]; [by rewrite Hfault|].
      done.
Qed.

Lemma cli_runs_head p argv input tm :
  In (Run argv input tm) (cli_runs provider p) ->
  hd_error argv = Some provider.
Proof.
  unfold cli_runs, cli_request.
  destruct (decide (provider = u "claude")) as [->|_].
  { intros [[= <- _ _]|[]]. reflexivity. }
  destruct (decide (provider = u "gemini")) as [->|_].
  { intros [[= <- _ _]|[]]. reflexivity. }
  intros [].
Qed.

Lemma cli_runs_length p : (length (cli_runs provider p) <= 1)%nat.
Proof.
  unfold cli_runs. destruct (cli_request provider p) as [[argv input]|]; simpl; lia.
Qed.

(** The facts every invocation shares, whatever its outcome. *)
Lemma generate_always w :
  exists res w' t,
    generate w = (res, w')
    /\ trace w' = trace w ++ t
    /\ List.filter is_run t = cli_runs provider (prompt w)
    /\ List.filter is_get_context t = context_calls chapter_num
    /\ In (CallAI (prompt w) provider 8000) t
    /\ (falsy (ai_reply env (prompt w) provider) = true -> res = Ok None).
Proof.
  destruct (reply_cases (ai_reply env (prompt w) provider))
    as [Hfalsy|(txt & Hreply & Htruthy)].
  - destruct (generate_on_falsy w Hfalsy)
      as (w' & t & Heq & _ & _ & _ & Ht & Hcalls).
    exists (Ok None), w', t. split; [exact Heq|]. split; [exact Ht|].
    rewrite (filter_calls is_run), (filter_calls is_get_context), Hcalls by done.
    split; [|split; [|split; [|done]]].
    + trace_filter; rewrite ?filter_context_calls by done; trace_filter.
      reflexivity.
    + trace_filter. unfold context_calls.
      destruct (1 <? chapter_num); trace_filter; reflexivity.
    + apply (calls_In _ t); [done|]. rewrite Hcalls.
      right. apply in_or_app. right. by left.
  - destruct (generate_on_reply w txt Hreply Htruthy)
      as (w' & t & Heq & Ht & Hrun & Hctx & Hai & _).
    do 3 eexists. split; [exact Heq|]. repeat (split; [assumption|]).
    rewrite Hreply. simpl. by rewrite Htruthy.
Qed.

(** C3, as the code has it.  An invocation runs at most one subprocess,
    the CLI of the provider the caller selected, and none for another
    provider; when the AI call yields nothing usable the invocation
    returns [None], it does not raise. *)
Theorem single_provider_no_fallback w :
  exists res w' t,
    generate w = (res, w')
    /\ trace w' = trace w ++ t
    /\ (length (List.filter is_run t) <= 1)%nat
    /\ (forall argv input tm,
          In (Run argv input tm) t -> hd_error argv = Some provider)
    /\ (forall w0 r,
          fst (call_ai env (prompt w) provider 8000 w0) = Ok r ->
          falsy r = true -> res = Ok None).
Proof.
  destruct (generate_always w) as (res & w' & t & Heq & Ht & Hrun & _ & _ & Hnone).
  exists res, w', t. split; [exact Heq|]. split; [exact Ht|]. split; [|split].
  - rewrite Hrun. apply cli_runs_length.
  - intros argv input tm Hin.
    apply (cli_runs_head (prompt w) argv input tm). rewrite <- Hrun.
    apply filter_In. by split.
  - intros w0 r Hcall Hfalsy.
    rewrite call_ai_returns in Hcall. injection Hcall as <-. by apply Hnone.
Qed.

(** C5, as the code has it.  With the embedding backend unavailable and a
    non-empty reply of the AI client, the invocation makes no
    [index_chapter] call and leaves the store alone; it returns the
    generated text unless persisting it meets a refusal of the
    filesystem, whose exception then ends the invocation. *)
Theorem backend_unavailable_degrades w w0 content :
  backend_available env = false ->
  fst (call_ai env (prompt w) provider 8000 w0) = Ok (Some content) ->
  truthy content = true ->
  exists w' t,
    generate w =
      (match persist_fault env path content with
       | Some ex => Raise ex
       | None => Ok (Some content)
       end, w')
    /\ trace w' = trace w ++ t
    /\ List.filter is_index t = []
    /\ stores w' = stores w
    /\ (persist_fault env path content = None ->
        files w' !! to_str path = Some content).
Proof.
  intros Hdown Hcall Htruthy.
  rewrite call_ai_returns in Hcall. injection Hcall as Hreply.
  destruct (generate_on_reply w content Hreply Htruthy)
    as (w' & t & Heq & Ht & _ & _ & _ & Hbad & Hgood).
  exists w', t. split; [exact Heq|]. split; [exact Ht|].
  destruct (persist_fault env path content) as [ex|] eqn:Hfault.
  - destruct Hbad as [Hs Hidx]; [done|]. done.
  - destruct Hgood as (Hfiles & Hstores & _ & Hcalls); [done|].
    rewrite Hdown in Hstores, Hcalls.
    split; [|split; [exact Hstores|]].
    + rewrite (filter_calls is_index), Hcalls by done.
      trace_filter; rewrite ?filter_context_calls by done; trace_filter.
      reflexivity.
    + intros _. rewrite Hfiles. apply lookup_insert_eq.
Qed.

Lemma context_of_no_earlier (c : option (gmap Z (Entry V))) n :
  (forall m k entry, c = Some m -> m !! k = Some entry -> n <= k) ->
  context_of backend c n = [].
Proof.
  intros Hlate. destruct c as [m|]; [|done]. unfold context_of.
  assert (List.filter (fun kv : Z * Entry V => fst kv <? n) (map_to_list m) = [])
    as ->; [|done].
  assert (forall kv, In kv (map_to_list m) -> (fst kv <? n) = false) as Hall.
  { intros [k entry] Hin. apply list_elem_of_In, elem_of_map_to_list in Hin.
    simpl. apply Z.ltb_ge. by eapply Hlate. }
  induction (map_to_list m) as [|kv l IH]; simpl; [done|].
  rewrite Hall by (by left). apply IH. intros kv' Hin. apply Hall. by right.
Qed.

(** C6. For a chapter number of 1 (or less) the generator does not ask the
    store and composes its prompt with the empty context; it asks the
    store only when the chapter number exceeds 1; and
    [get_chapter_context] answers the empty context, without raising and
    without changing the store, when no strictly earlier chapter is
    indexed. *)
Theorem first_chapter_empty_context w :
  (chapter_num <= 1 ->
   exists res w' t,
     generate w = (res, w')
     /\ trace w' = trace w ++ t
     /\ List.filter is_get_context t = []
     /\ In (CallAI (build_prompt chapter_num chapter_title outline [])
                   provider 8000) t)
  /\ (forall res w' t k,
        generate w = (res, w') -> trace w' = trace w ++ t ->
        In (GetContext k) t -> 1 < chapter_num)
  /\ (forall (h : BookEmbeddings) n,
        (forall m k entry,
            collection h w = Some m -> m !! k = Some entry -> n <= k) ->
        get_chapter_context backend h n w = (Ok [], log (GetContext n) w)).
Proof.
  destruct (generate_always w)
    as (res & w' & t & Heq & Ht & _ & Hctx & Hai & _).
  split; [|split].
  - intros Hfirst. exists res, w', t.
    split; [exact Heq|]. split; [exact Ht|].
    rewrite (prompt_for_first w Hfirst) in Hai.
    unfold context_calls in Hctx.
    assert ((1 <? chapter_num) = false) as Hn by (apply Z.ltb_ge; lia).
    rewrite Hn in Hctx. split; [exact Hctx | exact Hai].
  - intros res' w'' t' k Heq' Ht' Hin.
    rewrite Heq in Heq'. injection Heq' as <- <-.
    rewrite Ht in Ht'. apply app_inv_head in Ht'. subst t'.
    assert (In (GetContext k) (List.filter is_get_context t)) as Hin'
      by (apply filter_In; by split).
    rewrite Hctx in Hin'. unfold context_calls in Hin'.
    destruct (1 <? chapter_num) eqn:Hn; [|done]. by apply Z.ltb_lt.
  - intros h n Hlate. unfold get_chapter_context.
    by rewrite context_of_no_earlier.
Qed.

(** C8. When an invocation returns a text, the word count it prints is the
    number of whitespace-delimited tokens of that text, which is
    [len(content.split())]; every [index_chapter] call of the invocation
    carries that text and that count in its metadata, and with a
    connected store the count is what the store holds for the chapter. *)
Theorem word_count_reported w content w' :
  generate w = (Ok (Some content), w') ->
  let wc := Z.of_nat (count_tokens content) in
  let meta := {| title := chapter_title; word_count := wc |} in
  length (split content) = count_tokens content
  /\ exists t,
      trace w' = trace w ++ t
      /\ In (Print (u "  ✓ Word count: " ++ dec_comma wc)) t
      /\ (forall n c m,
            In (IndexChapter n c m) t ->
            n = chapter_num /\ c = content /\ m = meta)
      /\ (backend_available env = true ->
          In (IndexChapter chapter_num content meta) t
          /\ exists m entry,
              stores w' !! book_dir = Some m
              /\ m !! chapter_num = Some entry
              /\ metadata entry = meta).
Proof.
  intros Hgen wc meta. subst wc meta.
  split; [apply split_length|].
  destruct (generate_returns_some w content w' Hgen)
    as (Hreply & Htruthy & Hfault).
  destruct (generate_on_reply w content Hreply Htruthy)
    as (w1 & t & Heq & Ht & _ & _ & _ & _ & Hgood).
  rewrite Hgen, Hfault in Heq. injection Heq as <-.
  destruct Hgood as (_ & Hstores & Hwc & Hcalls); [exact Hfault|].
  rewrite split_length in Hstores, Hwc, Hcalls.
  exists t. split; [exact Ht|]. split; [exact Hwc|]. split.
  - intros n c m Hin. apply In_calls in Hin; [|done].
    rewrite Hcalls in Hin.
    destruct Hin as [Hin|Hin]; [discriminate Hin|].
    apply in_app_or in Hin as [Hin|Hin].
    { unfold context_calls in Hin.
      destruct (1 <? chapter_num); [|done].
      destruct Hin as [Hin|[]]; discriminate Hin. }
    destruct Hin as [Hin|Hin]; [discriminate Hin|].
    apply in_app_or in Hin as [Hin|Hin].
    { unfold cli_runs in Hin.
      destruct (cli_request provider (prompt w)) as [[argv input]|]; [|done].
      destruct Hin as [Hin|[]]; discriminate Hin. }
    apply in_app_or in Hin as [Hin|Hin].
    { repeat (destruct Hin as [Hin|Hin]; [discriminate Hin|]). done. }
    destruct (backend_available env); [|done].
    destruct Hin as [[= <- <- <-]|[]]. done.
  - intros Hup. rewrite Hup in Hstores, Hcalls. split.
    + apply (calls_In _ t); [done|]. rewrite Hcalls.
      right. apply in_or_app. right. right. apply in_or_app. right.
      apply in_or_app. right. by left.
    + do 2 eexists. rewrite Hstores.
      split; [apply lookup_insert_eq|]. split; [apply lookup_insert_eq|done].
Qed.

(** C2, as the code has it.  The generator does not validate its inputs:
    with a chapter number below 1, or an empty title or outline, it
    composes the prompt from the given fields and calls the AI client as
    for any input.  A falsy reply gives [None] with files and store
    untouched; a non-empty reply that is persisted is returned, is on disk
    under the chapter path, and is indexed when the store is connected. *)
Theorem no_input_validation w :
  chapter_num < 1 \/ chapter_title = [] \/ outline = [] ->
  exists res w' t,
    generate w = (res, w')
    /\ trace w' = trace w ++ t
    /\ prompt w = build_prompt chapter_num chapter_title outline
                    (context_for env backend chapter_num book_dir w)
    /\ In (CallAI (prompt w) provider 8000) t
    /\ List.filter is_run t = cli_runs provider (prompt w)
    /\ (forall w0 r,
          fst (call_ai env (prompt w) provider 8000 w0) = Ok r ->
          falsy r = true ->
          res = Ok None /\ files w' = files w /\ stores w' = stores w)
    /\ (forall w0 content,
          fst (call_ai env (prompt w) provider 8000 w0) = Ok (Some content) ->
          truthy content = true ->
          persist_fault env path content = None ->
          res = Ok (Some content)
          /\ files w' !! to_str path = Some content
          /\ (backend_available env = true ->
              exists m entry,
                stores w' !! book_dir = Some m
                /\ m !! chapter_num = Some entry
                /\ title (metadata entry) = chapter_title)).
Proof.
  intros _.
  destruct (generate_always w)
    as (res & w' & t & Heq & Ht & Hrun & _ & Hai & _).
  exists res, w', t. split; [exact Heq|]. split; [exact Ht|].
  split; [reflexivity|]. split; [exact Hai|]. split; [exact Hrun|]. split.
  - intros w0 r Hcall Hfalsy.
    rewrite call_ai_returns in Hcall. injection Hcall as <-.
    destruct (generate_on_falsy w Hfalsy)
      as (w1 & t1 & Heq1 & Hf & _ & Hs & _).
    rewrite Heq in Heq1. injection Heq1 as -> ->. done.
  - intros w0 content Hcall Htruthy Hfault.
    rewrite call_ai_returns in Hcall. injection Hcall as Hreply.
    destruct (generate_on_reply w content Hreply Htruthy)
      as (w1 & t1 & Heq1 & _ & _ & _ & _ & _ & Hgood).
    rewrite Heq, Hfault in Heq1. injection Heq1 as -> ->.
    destruct Hgood as (Hfiles & Hstores & _); [exact Hfault|].
    split; [done|]. split.
    + rewrite Hfiles. apply lookup_insert_eq.
    + intros Hup. rewrite Hup in Hstores. do 2 eexists. rewrite Hstores.
      split; [apply lookup_insert_eq|]. split; [apply lookup_insert_eq|done].
Qed.

(** An invocation that returns a text has saved it under the chapter
    path. *)
Lemma generate_some_saved w content w' :
  generate w = (Ok (Some content), w') ->
  files w' !! to_str path = Some content
  /\ exists t, trace w' = trace w ++ t /\ In (Saved (to_str path) content) t.
Proof.
  intros Hgen.
  destruct (generate_returns_some w content w' Hgen)
    as (Hreply & Htruthy & Hfault).
  destruct (generate_on_reply w content Hreply Htruthy)
    as (w1 & t & Heq & Ht & _ & _ & _ & _ & Hgood).
  rewrite Hgen, Hfault in Heq. injection Heq as <-.
  destruct Hgood as (Hfiles & _ & _ & Hcalls); [exact Hfault|].
  split; [rewrite Hfiles; apply lookup_insert_eq|].
  exists t. split; [exact Ht|].
  apply (calls_In _ t); [done|]. rewrite Hcalls.
  right. apply in_or_app. right. right. apply in_or_app. right.
  apply in_or_app. left. simpl. tauto.
Qed.

End Generator.

(* ===================================================================== *)
(** ** The chapter path *)
(* ===================================================================== *)

Section OutputPath.

Context {V : Type} (lower : str -> str) (backend : Backend V).
Context (chapter_num : Z) (chapter_title book_dir : str).

Let path := output_path_of lower book_dir chapter_num chapter_title.

(** The file name, with the replacement of spaces spelled out. *)
Let name : str :=
  u "chapter" ++ dec02 chapter_num ++ u "_"
  ++ List.map (fun c => if (c =? 32)%N then 95%N else c) (lower chapter_title)
  ++ u ".md".

Lemma chapter_file_name_eq :
  chapter_file_name lower chapter_num chapter_title = name.
Proof.
  subst name. unfold chapter_file_name.
  by rewrite (replace_char_map 32%N 95%N).
Qed.

Lemma dec02_no_slash : ~ In 47%N (dec02 chapter_num).
Proof.
  unfold dec02.
  destruct ((0 <=? chapter_num) && (chapter_num <? 10)).
  - intros [Hin|Hin]; [discriminate Hin|].
    revert Hin. apply dec_no_char; lia.
  - apply dec_no_char; lia.
Qed.

Lemma name_no_slash : ~ In 47%N (lower chapter_title) -> ~ In 47%N name.
Proof.
  intros Htitle Hin. subst name.
  change (u "chapter") with [99; 104; 97; 112; 116; 101; 114]%N in Hin.
  change (u "_") with [95%N] in Hin.
  change (u ".md") with [46; 109; 100]%N in Hin.
  rewrite !in_app_iff in Hin.
  destruct Hin as [Hin|[Hin|[Hin|[Hin|Hin]]]].
  - simpl in Hin. intuition discriminate.
  - by apply dec02_no_slash.
  - simpl in Hin. intuition discriminate.
  - apply in_map_iff in Hin as (c & Hc & Hin).
    destruct (c =? 32)%N; [discriminate Hc|]. subst c. by apply Htitle.
  - simpl in Hin. intuition discriminate.
Qed.

Lemma chapters_dir_eq :
  chapters_dir book_dir =
  {| root := root (parse book_dir);
     parts := parts (parse book_dir) ++ [u "outputs"; u "chapters"] |}.
Proof.
  unfold chapters_dir.
  change (joinpath (parse book_dir) (u "outputs"))
    with {| root := root (parse book_dir);
            parts := parts (parse book_dir) ++ [u "outputs"] |}.
  change (joinpath ?p (u "chapters"))
    with {| root := root p; parts := parts p ++ [u "chapters"] |}.
  simpl. by rewrite <- app_assoc.
Qed.

Lemma path_of_plain_name :
  ~ In 47%N (lower chapter_title) ->
  path = {| root := root (chapters_dir book_dir);
            parts := parts (chapters_dir book_dir) ++ [name] |}.
Proof.
  intros Htitle. subst path. unfold output_path_of.
  rewrite chapter_file_name_eq. unfold joinpath at 1.
  pose proof (name_no_slash Htitle) as Hname.
  subst name.
  change (u "chapter") with ([99; 104]%N ++ [97; 112; 116; 101; 114]%N) in *.
  rewrite <- !app_assoc in *. cbn [app] in *.
  by rewrite parse_no_slash.
Qed.

Lemma to_str_snoc (p : Path) (x : str) :
  parts p <> [] ->
  to_str {| root := root p; parts := parts p ++ [x] |}
  = to_str p ++ u "/" ++ x.
Proof.
  intros Hne. unfold to_str. cbn [root parts].
  destruct (parts p) as [|a ps]; [done|].
  assert (join (u "/") ((a :: ps) ++ [x])
          = join (u "/") (a :: ps) ++ u "/" ++ x) as Hj
    by (by apply join_snoc).
  cbn [app] in Hj |- *.
  destruct (root p); cbv beta iota; rewrite Hj; cbn [app];
    rewrite <- ?List.app_assoc; reflexivity.
Qed.

(** C7. The chapter path is a function of the book directory, the chapter
    number and the title alone: the chapters directory (the book
    directory, then [outputs], then [chapters]) joined with the name made
    of [chapter], the chapter number zero-padded to two digits, an
    underscore, the lowered title with every space turned into an
    underscore, and [.md]; for a title without a slash that is the
    directory, a slash, and the name.  Generating the same chapter again
    saves under the same path, and the file then holds the later text. *)
Theorem output_path_deterministic :
  path = joinpath (chapters_dir book_dir) name
  /\ chapters_dir book_dir =
       {| root := root (parse book_dir);
          parts := parts (parse book_dir) ++ [u "outputs"; u "chapters"] |}
  /\ (0 <= chapter_num < 10 -> dec02 chapter_num = u "0" ++ dec chapter_num)
  /\ (10 <= chapter_num -> dec02 chapter_num = dec chapter_num)
  /\ (~ In 47%N (lower chapter_title) ->
      to_str path = to_str (chapters_dir book_dir) ++ u "/" ++ name)
  /\ (forall env1 env2 outline1 outline2 provider1 provider2
             (w w1 w2 : World V) c1 c2,
        generate_chapter_with_coherence lower env1 backend chapter_num
          chapter_title outline1 book_dir provider1 w = (Ok (Some c1), w1) ->
        generate_chapter_with_coherence lower env2 backend chapter_num
          chapter_title outline2 book_dir provider2 w1 = (Ok (Some c2), w2) ->
        files w1 !! to_str path = Some c1
        /\ files w2 !! to_str path = Some c2
        /\ In (Saved (to_str path) c1) (trace w1)
        /\ In (Saved (to_str path) c2) (trace w2)).
Proof.
  split; [|split; [|split; [|split; [|split]]]].
  - subst path. unfold output_path_of. by rewrite chapter_file_name_eq.
  - apply chapters_dir_eq.
  - intros [H0 H10]. unfold dec02.
    apply Z.leb_le in H0. apply Z.ltb_lt in H10. by rewrite H0, H10.
  - intros H10. unfold dec02.
    assert ((chapter_num <? 10) = false) as -> by (apply Z.ltb_ge; lia).
    by rewrite andb_false_r.
  - intros Htitle. rewrite (path_of_plain_name Htitle).
    apply to_str_snoc. rewrite chapters_dir_eq. cbn [parts].
    by destruct (parts (parse book_dir)).
  - intros env1 env2 outline1 outline2 provider1 provider2 w w1 w2 c1 c2 H1 H2.
    apply generate_some_saved in H1 as (Hf1 & t1 & Ht1 & Hin1).
    apply generate_some_saved in H2 as (Hf2 & t2 & Ht2 & Hin2).
    repeat split; try assumption.
    + rewrite Ht1. apply in_or_app. by right.
    + rewrite Ht2. apply in_or_app. by right.
Qed.

End OutputPath.

(* ===================================================================== *)
(** ** The prompt *)
(* ===================================================================== *)

Section Prompt.

Variables (chapter_num : Z) (chapter_title outline context : str).

Lemma marker_in_label : infix prompt_marker context_label.
Proof.
  exists (u "**"), (u " - Maintain consistency with previous chapters:**").
  vm_compute. reflexivity.
Qed.

Lemma marker_chars c :
  c = 32%N \/ c = 58%N \/ c = 42%N \/ c = 10%N -> ~ In c prompt_marker.
Proof.
  intros Hc Hin. vm_compute in Hin.
  repeat (destruct Hin as [Hin|Hin];
          [subst c; destruct Hc as [?|[?|[?|?]]]; discriminate|]).
  exact Hin.
Qed.

Lemma marker_not_in_dec n : ~ infix prompt_marker (dec n).
Proof.
  intros Hin. apply (infix_In _ _ 73%N) in Hin; [|by left].
  revert Hin. apply dec_no_char; lia.
Qed.

(** The prompt composed for an empty context, cut at the characters that
    border the number, the title and the outline. *)
Lemma build_prompt_empty_cut :
  build_prompt chapter_num chapter_title outline [] =
  u "You are writing Chapter" ++ 32%N :: dec chapter_num
  ++ 32%N :: (u "of " ++ dquote ++ u "El Desarrollador Ágil" ++ dquote
              ++ u ", a technical book on developer productivity."
              ++ [10%N; 10%N] ++ u "**Chapter")
  ++ 32%N :: dec chapter_num
  ++ 58%N :: [] ++ 32%N :: chapter_title
  ++ 42%N :: (u "*" ++ [10%N])
  ++ 10%N :: outline
  ++ 10%N :: ([10%N; 10%N; 10%N; 10%N] ++ requirements).
Proof.
  unfold build_prompt, opening, heading. cbn [truthy]. cbv iota.
  replace (u "You are writing Chapter ")
    with (u "You are writing Chapter" ++ [32%N]) by (vm_compute; reflexivity).
  replace (u " of ") with (32%N :: u "of ") by (vm_compute; reflexivity).
  replace (u "**Chapter ") with (u "**Chapter" ++ [32%N])
    by (vm_compute; reflexivity).
  replace (u ": ") with [58%N; 32%N] by (vm_compute; reflexivity).
  replace (u "**") with (42%N :: u "*") by (vm_compute; reflexivity).
  change nl with [10%N].
  rewrite <- !List.app_assoc. cbn [app]. reflexivity.
Qed.

(** The parts of the prompt, by the definitions that compose it. *)
Lemma prompt_parts :
  let prompt := build_prompt chapter_num chapter_title outline context in
  infix (u "You are writing Chapter " ++ dec chapter_num ++ u " of ") prompt
  /\ infix (u "**Chapter " ++ dec chapter_num ++ u ": " ++ chapter_title
            ++ u "**") prompt
  /\ infix outline prompt
  /\ infix requirements prompt
  /\ (context <> [] ->
      prompt = opening chapter_num ++ nl
               ++ heading chapter_num chapter_title ++ nl
               ++ outline ++ nl ++ nl
               ++ context_label ++ nl ++ context ++ nl
               ++ nl ++ requirements)
  /\ (context <> [] -> infix (context_label ++ nl ++ context ++ nl) prompt)
  /\ (context = [] ->
      prompt = opening chapter_num ++ nl
               ++ heading chapter_num chapter_title ++ nl
               ++ outline ++ nl ++ nl
               ++ nl ++ nl
               ++ nl ++ requirements)
  /\ (context = [] ->
      ~ infix prompt_marker chapter_title ->
      ~ infix prompt_marker outline ->
      ~ infix context_label prompt).
Proof.
  cbv zeta.
  split; [|split; [|split; [|split; [|split; [|split; [|split]]]]]].
  - unfold build_prompt, opening. rewrite <- !List.app_assoc.
    apply starts_infix. do 2 apply starts_app. apply starts_here.
  - unfold build_prompt, heading. rewrite <- !List.app_assoc.
    do 2 apply infix_skip.
    apply starts_infix. do 4 apply starts_app. apply starts_here.
  - unfold build_prompt.
    do 4 apply infix_skip. apply starts_infix, starts_here.
  - unfold build_prompt.
    do 12 apply infix_skip. apply infix_refl.
  - intros Hctx. unfold build_prompt.
    destruct context; [exfalso; by apply Hctx|]. cbn [truthy].
    reflexivity.
  - intros Hctx. unfold build_prompt.
    destruct context as [|c ctx]; [exfalso; by apply Hctx|]. cbn [truthy].
    do 7 apply infix_skip.
    apply starts_infix. do 3 apply starts_app. apply starts_here.
  - intros ->. unfold build_prompt. cbn [truthy]. cbv iota.
    rewrite !List.app_nil_l. reflexivity.
  - intros -> Htitle Houtline Hlabel.
    pose proof (infix_trans _ _ _ marker_in_label Hlabel) as Hin.
    rewrite build_prompt_empty_cut in Hin.
    assert (forall seg, infixb prompt_marker seg = false ->
                        ~ infix prompt_marker seg) as Hclosed.
    { intros seg Hseg Hsub. apply infixb_complete in Hsub. congruence. }
    apply infix_sep in Hin as [Hin|Hin];
      [revert Hin; apply Hclosed; vm_compute; reflexivity
      | | apply marker_chars; tauto].
    apply infix_sep in Hin as [Hin|Hin];
      [by apply marker_not_in_dec in Hin | | apply marker_chars; tauto].
    apply infix_sep in Hin as [Hin|Hin];
      [revert Hin; apply Hclosed; vm_compute; reflexivity
      | | apply marker_chars; tauto].
    apply infix_sep in Hin as [Hin|Hin];
      [by apply marker_not_in_dec in Hin | | apply marker_chars; tauto].
    apply infix_sep in Hin as [Hin|Hin];
      [revert Hin; apply Hclosed; vm_compute; reflexivity
      | | apply marker_chars; tauto].
    apply infix_sep in Hin as [Hin|Hin];
      [by apply Htitle | | apply marker_chars; tauto].
    apply infix_sep in Hin as [Hin|Hin];
      [revert Hin; apply Hclosed; vm_compute; reflexivity
      | | apply marker_chars; tauto].
    apply infix_sep in Hin as [Hin|Hin];
      [by apply Houtline | | apply marker_chars; tauto].
    revert Hin. apply Hclosed. vm_compute. reflexivity.
Qed.

(** The fixed text of the prompt, as the source has it. *)
Lemma opening_text :
  opening chapter_num =
  u "You are writing Chapter " ++ dec chapter_num ++ u " of " ++
  dquote ++ u "El Desarrollador Ágil" ++ dquote ++
  u ", a technical book on developer productivity." ++ nl.
Proof. reflexivity. Qed.

Lemma heading_text :
  heading chapter_num chapter_title =
  u "**Chapter " ++ dec chapter_num ++ u ": " ++ chapter_title
  ++ u "**" ++ nl.
Proof. reflexivity. Qed.

Lemma context_label_text :
  context_label =
  u "**IMPORTANT - Maintain consistency with previous chapters:**".
Proof. reflexivity. Qed.

Lemma requirements_text :
  requirements =
    u "**Requirements:**" ++ nl ++
    u "- Write in Spanish (España/Latin America neutral)" ++ nl ++
    u "- 4,000-5,000 words" ++ nl ++
    u "- Scientific rigor (cite sources)" ++ nl ++
    u "- Balance: 60% technical, 40% narrative" ++ nl ++
    u "- Include:" ++ nl ++
    u "  * Opening hook (compelling anecdote)" ++ nl ++
    u "  * Scientific evidence (studies, data)" ++ nl ++
    u "  * Practical frameworks" ++ nl ++
    u "  * Code examples where relevant" ++ nl ++
    u "  * Takeaways section" ++ nl ++
    u "- Style: Like " ++ dquote ++ u "Agilmente" ++ dquote ++
      u " by Bachrach - accessible but rigorous" ++ nl ++
    u "- Format: Markdown" ++ nl ++
    nl ++
    u "Write the COMPLETE chapter now." ++ nl.
Proof. reflexivity. Qed.

(** C9. The prompt, with its fixed text spelled out.  It holds the
    opening sentence around the chapter number, the heading with the
    chapter number and the title, the outline, and the requirements
    block with every style instruction.  With a non-empty context the
    label line and the context stand between the outline and the
    requirements; with an empty context that place is blank: the
    function adds no label, and the label occurs nowhere in the prompt
    when neither the title nor the outline carries the word IMPORTANT. *)
Theorem prompt_composition :
  let prompt := build_prompt chapter_num chapter_title outline context in
  let sentence :=
    u "You are writing Chapter " ++ dec chapter_num ++ u " of " ++
    dquote ++ u "El Desarrollador Ágil" ++ dquote ++
    u ", a technical book on developer productivity." ++ nl in
  let title_line :=
    u "**Chapter " ++ dec chapter_num ++ u ": " ++ chapter_title
    ++ u "**" ++ nl in
  let label :=
    u "**IMPORTANT - Maintain consistency with previous chapters:**" in
  let style :=
    u "**Requirements:**" ++ nl ++
    u "- Write in Spanish (España/Latin America neutral)" ++ nl ++
    u "- 4,000-5,000 words" ++ nl ++
    u "- Scientific rigor (cite sources)" ++ nl ++
    u "- Balance: 60% technical, 40% narrative" ++ nl ++
    u "- Include:" ++ nl ++
    u "  * Opening hook (compelling anecdote)" ++ nl ++
    u "  * Scientific evidence (studies, data)" ++ nl ++
    u "  * Practical frameworks" ++ nl ++
    u "  * Code examples where relevant" ++ nl ++
    u "  * Takeaways section" ++ nl ++
    u "- Style: Like " ++ dquote ++ u "Agilmente" ++ dquote ++
      u " by Bachrach - accessible but rigorous" ++ nl ++
    u "- Format: Markdown" ++ nl ++
    nl ++
    u "Write the COMPLETE chapter now." ++ nl in
  infix (u "You are writing Chapter " ++ dec chapter_num ++ u " of ") prompt
  /\ infix (u "**Chapter " ++ dec chapter_num ++ u ": " ++ chapter_title
            ++ u "**") prompt
  /\ infix outline prompt
  /\ infix style prompt
  /\ (context <> [] ->
      prompt = sentence ++ nl
               ++ title_line ++ nl
               ++ outline ++ nl ++ nl
               ++ label ++ nl ++ context ++ nl
               ++ nl ++ style)
  /\ (context <> [] -> infix (label ++ nl ++ context ++ nl) prompt)
  /\ (context = [] ->
      prompt = sentence ++ nl
               ++ title_line ++ nl
               ++ outline ++ nl ++ nl
               ++ nl ++ nl
               ++ nl ++ style)
  /\ (context = [] ->
      ~ infix (u "IMPORTANT") chapter_title ->
      ~ infix (u "IMPORTANT") outline ->
      ~ infix label prompt).
Proof.
  cbv zeta.
  rewrite <- requirements_text, <- context_label_text,
    <- opening_text, <- heading_text.
  change (u "IMPORTANT") with prompt_marker.
  exact prompt_parts.
Qed.

End Prompt.

(* ===================================================================== *)
(** ** The scenarios, run *)
(* ===================================================================== *)

(** A failing provider: chapter 4 is not produced and nothing changes. *)
Lemma generation_failure_no_effects_witness :
  exists w' t,
    generate_chapter_with_coherence ascii_lower env_failing unit_backend
      4 (u "Foco") (u "esquema") (u ".") (u "claude") empty_world
    = (Ok None, w')
    /\ files w' = files empty_world /\ dirs w' = dirs empty_world
    /\ stores w' = stores empty_world
    /\ trace w' = trace empty_world ++ t
    /\ List.filter is_index t = [] /\ List.filter is_fs t = [].
Proof.
  apply (generation_failure_no_effects ascii_lower env_failing unit_backend
           4 (u "Foco") (u "esquema") (u ".") (u "claude")
           empty_world empty_world None);
    vm_compute; reflexivity.
Defined.

(** Chapter 0 with an empty title and an empty outline is generated,
    written and indexed like any other. *)
Lemma invalid_input_counterexample :
  let run :=
    generate_chapter_with_coherence ascii_lower (env_replying (u "texto"))
      unit_backend 0 [] [] (u ".") (u "claude") empty_world in
  fst run = Ok (Some (u "texto"))
  /\ files (snd run) !! u "outputs/chapters/chapter00_.md" = Some (u "texto")
  /\ In (Run [u "claude"; u "--print"] (Some (build_prompt 0 [] [] [])) 120)
        (trace (snd run))
  /\ (stores (snd run) !! u "." ≫= (.!! 0)) <> None.
Proof.
  cbv zeta. split; [vm_compute; reflexivity|].
  split; [vm_compute; reflexivity|].
  split; [vm_compute; tauto|].
  vm_compute. discriminate.
Qed.

Lemma no_input_validation_witness :
  fst (generate_chapter_with_coherence ascii_lower (env_replying (u "texto"))
         unit_backend 0 [] [] (u ".") (u "claude") empty_world)
  = Ok (Some (u "texto")).
Proof.
  destruct (no_input_validation ascii_lower (env_replying (u "texto"))
              unit_backend 0 [] [] (u ".") (u "claude") empty_world)
    as (res & w' & t & Heq & _ & _ & _ & _ & _ & Hsome); [left; lia|].
  rewrite Heq. simpl.
  apply (Hsome empty_world (u "texto")); vm_compute; reflexivity.
Defined.

(** With the claude CLI down and the gemini CLI up, an invocation for
    claude gives up after the one claude subprocess, although the AI
    client would have answered for gemini. *)
Lemma no_fallback_counterexample :
  let run :=
    generate_chapter_with_coherence ascii_lower env_claude_down unit_backend
      1 (u "Intro") (u "esquema") (u ".") (u "claude") empty_world in
  let prompt := build_prompt 1 (u "Intro") (u "esquema") [] in
  fst run = Ok None
  /\ List.filter is_run (trace (snd run))
     = [Run [u "claude"; u "--print"] (Some prompt) 120]
  /\ fst (call_ai env_claude_down prompt (u "gemini") 8000 (snd run))
     = Ok (Some (u "texto")).
Proof.
  cbv zeta. repeat split; vm_compute; reflexivity.
Qed.

Lemma single_provider_no_fallback_witness :
  fst (generate_chapter_with_coherence ascii_lower env_claude_down
         unit_backend 1 (u "Intro") (u "esquema") (u ".") (u "claude")
         empty_world)
  = Ok None.
Proof.
  destruct (single_provider_no_fallback ascii_lower env_claude_down
              unit_backend 1 (u "Intro") (u "esquema") (u ".") (u "claude")
              empty_world)
    as (res & w' & t & Heq & _ & _ & _ & Hnone).
  rewrite Heq. simpl.
  apply (Hnone empty_world None); vm_compute; reflexivity.
Defined.

(** A full disk: the invocation ends with the error of the write and the
    store is as before; and on a working disk the index call follows the
    save. *)
Lemma index_only_after_write_witness :
  (let run :=
     generate_chapter_with_coherence ascii_lower env_disk_full unit_backend
       1 (u "Intro") (u "esquema") (u ".") (u "claude") empty_world in
   fst run = Raise (MkExn OSError (u "No space left on device"))
   /\ stores (snd run) = stores empty_world)
  /\ (let run :=
        generate_chapter_with_coherence ascii_lower (env_replying (u "texto"))
          unit_backend 1 (u "Intro") (u "esquema") (u ".") (u "claude")
          empty_world in
      In (Saved (u "outputs/chapters/chapter01_intro.md") (u "texto"))
         (firstn 14 (trace (snd run)))).
Proof.
  cbv zeta. split.
  - destruct (index_only_after_write ascii_lower env_disk_full unit_backend
                1 (u "Intro") (u "esquema") (u ".") (u "claude") empty_world)
      as (res & w' & t & Heq & _ & _ & Habort).
    rewrite Heq. simpl.
    destruct (Habort empty_world (u "texto")
                (MkExn OSError (u "No space left on device")))
      as (Hres & Hstores & _); [vm_compute; reflexivity..|].
    split; assumption.
  - destruct (index_only_after_write ascii_lower (env_replying (u "texto"))
                unit_backend 1 (u "Intro") (u "esquema") (u ".") (u "claude")
                empty_world)
      as (res & w' & t & Heq & Ht & Horder & _).
    rewrite Heq. simpl. rewrite Ht. simpl.
    assert (t = trace (snd (generate_chapter_with_coherence ascii_lower
                              (env_replying (u "texto")) unit_backend
                              1 (u "Intro") (u "esquema") (u ".") (u "claude")
                              empty_world))) as Htrace
      by (rewrite Heq; simpl; rewrite Ht; reflexivity).
    destruct (Horder (firstn 14 t) (skipn 15 t) 1 (u "texto")
                {| title := u "Intro"; word_count := 1 |}) as [Hin _].
    + rewrite Htrace. vm_compute. reflexivity.
    + revert Hin. vm_compute. tauto.
Defined.

(** Without the embedding backend and with a disk that refuses the file,
    the AI client's text is not returned: the invocation raises. *)
Lemma backend_down_disk_refuses_counterexample :
  let run :=
    generate_chapter_with_coherence ascii_lower env_read_only unit_backend
      1 (u "Intro") (u "esquema") (u ".") (u "claude") empty_world in
  backend_available env_read_only = false
  /\ fst (call_ai env_read_only (build_prompt 1 (u "Intro") (u "esquema") [])
                  (u "claude") 8000 empty_world)
     = Ok (Some (u "texto"))
  /\ fst run = Raise (MkExn OSError (u "Permission denied"))
  /\ fst run <> Ok (Some (u "texto")).
Proof.
  cbv zeta. split; [reflexivity|].
  split; [vm_compute; reflexivity|].
  split; [vm_compute; reflexivity|].
  vm_compute. discriminate.
Qed.

Lemma backend_unavailable_degrades_witness :
  fst (generate_chapter_with_coherence ascii_lower env_no_backend
         unit_backend 2 (u "Deep Work") (u "esquema") (u ".") (u "claude")
         empty_world)
  = Ok (Some (u "texto")).
Proof.
  destruct (backend_unavailable_degrades ascii_lower env_no_backend
              unit_backend 2 (u "Deep Work") (u "esquema") (u ".")
              (u "claude") empty_world empty_world (u "texto"))
    as (w' & t & Heq & _); [reflexivity | vm_compute; reflexivity
                           | reflexivity |].
  rewrite Heq. vm_compute. reflexivity.
Defined.

Lemma first_chapter_empty_context_witness :
  (exists res w' t,
     generate_chapter_with_coherence ascii_lower (env_replying (u "texto"))
       unit_backend 1 (u "Intro") (u "esquema") (u ".") (u "claude")
       empty_world = (res, w')
     /\ trace w' = trace empty_world ++ t
     /\ List.filter is_get_context t = []
     /\ In (CallAI (build_prompt 1 (u "Intro") (u "esquema") [])
                   (u "claude") 8000) t)
  /\ get_chapter_context unit_backend
       (handle_of (env_replying (u "texto")) (u ".")) 1 empty_world
     = (Ok [], log (GetContext 1) empty_world).
Proof.
  destruct (first_chapter_empty_context ascii_lower (env_replying (u "texto"))
              unit_backend 1 (u "Intro") (u "esquema") (u ".") (u "claude")
              empty_world) as (Hfirst & _ & Hquery).
  split.
  - apply Hfirst. lia.
  - apply Hquery. intros m k entry Hm Hk.
    unfold collection in Hm. simpl in Hm. rewrite lookup_empty in Hm.
    injection Hm as <-. rewrite lookup_empty in Hk. discriminate Hk.
Defined.

Lemma output_path_deterministic_witness :
  to_str (output_path_of ascii_lower (u "libro") 2 (u "Deep Work"))
  = u "libro/outputs/chapters/chapter02_deep_work.md"
  /\ (let run1 :=
        generate_chapter_with_coherence ascii_lower (env_replying (u "uno"))
          unit_backend 2 (u "Deep Work") (u "esquema") (u "libro")
          (u "claude") empty_world in
      let run2 :=
        generate_chapter_with_coherence ascii_lower (env_replying (u "dos"))
          unit_backend 2 (u "Deep Work") (u "otro esquema") (u "libro")
          (u "gemini") (snd run1) in
      files (snd run2) !! u "libro/outputs/chapters/chapter02_deep_work.md"
      = Some (u "dos")).
Proof.
  destruct (output_path_deterministic ascii_lower unit_backend
              2 (u "Deep Work") (u "libro"))
    as (_ & _ & _ & _ & Hplain & Hagain).
  split.
  - rewrite Hplain; [vm_compute; reflexivity|].
    vm_compute. intuition discriminate.
  - cbv zeta.
    destruct (Hagain (env_replying (u "uno")) (env_replying (u "dos"))
                (u "esquema") (u "otro esquema") (u "claude") (u "gemini")
                empty_world
                (snd (generate_chapter_with_coherence ascii_lower
                        (env_replying (u "uno")) unit_backend 2
                        (u "Deep Work") (u "esquema") (u "libro")
                        (u "claude") empty_world))
                (snd (generate_chapter_with_coherence ascii_lower
                        (env_replying (u "dos")) unit_backend 2
                        (u "Deep Work") (u "otro esquema") (u "libro")
                        (u "gemini")
                        (snd (generate_chapter_with_coherence ascii_lower
                                (env_replying (u "uno")) unit_backend 2
                                (u "Deep Work") (u "esquema") (u "libro")
                                (u "claude") empty_world))))
                (u "uno") (u "dos"))
      as (_ & Hsecond & _); [vm_compute; reflexivity..|].
    replace (u "libro/outputs/chapters/chapter02_deep_work.md")
      with (to_str (output_path_of ascii_lower (u "libro") 2 (u "Deep Work")))
      by (vm_compute; reflexivity).
    exact Hsecond.
Defined.

Lemma word_count_reported_witness :
  let run :=
    generate_chapter_with_coherence ascii_lower
      (env_replying (u "uno dos  tres")) unit_backend 1 (u "Intro")
      (u "esquema") (u ".") (u "claude") empty_world in
  In (Print (u "  ✓ Word count: 3")) (trace (snd run))
  /\ In (IndexChapter 1 (u "uno dos  tres")
           {| title := u "Intro"; word_count := 3 |}) (trace (snd run)).
Proof.
  cbv zeta.
  destruct (word_count_reported ascii_lower
              (env_replying (u "uno dos  tres")) unit_backend 1 (u "Intro")
              (u "esquema") (u ".") (u "claude") empty_world
              (u "uno dos  tres")
              (snd (generate_chapter_with_coherence ascii_lower
                      (env_replying (u "uno dos  tres")) unit_backend 1
                      (u "Intro") (u "esquema") (u ".") (u "claude")
                      empty_world)))
    as (_ & t & Ht & Hprint & _ & Hindexed); [vm_compute; reflexivity|].
  destruct Hindexed as [Hindex _]; [reflexivity|].
  rewrite Ht. simpl. split.
  - revert Hprint. vm_compute. tauto.
  - revert Hindex. vm_compute. tauto.
Defined.

(** No context is retrieved for the first chapter, yet an outline that
    carries the label puts it in the prompt sent to the AI client. *)
Lemma label_from_outline_counterexample :
  let label :=
    u "**IMPORTANT - Maintain consistency with previous chapters:**" in
  let run :=
    generate_chapter_with_coherence ascii_lower (env_replying (u "texto"))
      unit_backend 1 (u "Intro") label (u ".") (u "claude") empty_world in
  context_for (env_replying (u "texto")) unit_backend 1 (u ".") empty_world
  = []
  /\ infix label (build_prompt 1 (u "Intro") label [])
  /\ In (CallAI (build_prompt 1 (u "Intro") label []) (u "claude") 8000)
        (trace (snd run)).
Proof.
  cbv zeta. split; [vm_compute; reflexivity|]. split.
  - unfold build_prompt. do 4 apply infix_skip.
    apply starts_infix, starts_here.
  - vm_compute. tauto.
Qed.

Lemma prompt_composition_witness :
  infix (context_label ++ nl ++ u "Chapter 1: Intro" ++ nl)
        (build_prompt 2 (u "Deep Work") (u "esquema") (u "Chapter 1: Intro"))
  /\ ~ infix context_label (build_prompt 1 (u "Intro") (u "esquema") []).
Proof.
  split.
  - destruct (prompt_composition 2 (u "Deep Work") (u "esquema")
                (u "Chapter 1: Intro")) as (_ & _ & _ & _ & _ & Hctx & _).
    apply Hctx. vm_compute. discriminate.
  - destruct (prompt_composition 1 (u "Intro") (u "esquema") [])
      as (_ & _ & _ & _ & _ & _ & _ & Hnone).
    apply Hnone; [reflexivity | |];
      intros Hin; apply infixb_complete in Hin; vm_compute in Hin;
      discriminate Hin.
Defined.

(* ===================================================================== *)
(** ** Searching and slicing strings *)
(* ===================================================================== *)

Section SeqFacts.

Implicit Types (s x pre post sub body rest tail : str) (c : char).

Lemma prefixb_head_absent c sub a s :
  a <> c -> prefixb (c :: sub) (a :: s) = false.
Proof.
  intros Hne. simpl. destruct (c =? a)%N eqn:E; [|done].
  apply N.eqb_eq in E. congruence.
Qed.

Lemma find_in_here sub post : find_in sub (sub ++ post) = Some O.
Proof.
  destruct (sub ++ post) eqn:E; simpl; rewrite <- E, prefixb_app; done.
Qed.

Lemma find_in_skip c sub pre s :
  ~ In c pre ->
  find_in (c :: sub) (pre ++ s)
  = (fun i => (length pre + i)%nat) <$> find_in (c :: sub) s.
Proof.
  induction pre as [|a pre IH]; intros Hc.
  - simpl app. by destruct (find_in (c :: sub) s).
  - change ((a :: pre) ++ s) with (a :: (pre ++ s)).
    assert (a <> c) as Hne by (intros ->; apply Hc; by left).
    cbn [find_in]. rewrite (prefixb_head_absent c sub a _ Hne).
    rewrite IH by (intros Hin; apply Hc; by right).
    by destruct (find_in (c :: sub) s).
Qed.


Lemma infixb_absent c sub s : ~ In c s -> infixb (c :: sub) s = false.
Proof.
  induction s as [|a s IH]; intros Hc; [done|].
  assert (a <> c) as Hne by (intros ->; apply Hc; by left).
  cbn [infixb]. rewrite (prefixb_head_absent c sub a _ Hne).
  rewrite IH by (intros Hin; apply Hc; by right). done.
Qed.

Lemma clip_inside len i : 0 <= i <= len -> clip len i = i.
Proof.
  intros H. unfold clip.
  assert ((i <? 0) = false) as -> by (apply Z.ltb_ge; lia). lia.
Qed.

(** [find] from an index inside the string looks at the rest. *)
Lemma find_at pre s sub :
  find sub (pre ++ s) (Z.of_nat (length pre))
  = match find_in sub s with
    | Some i => Z.of_nat (length pre) + Z.of_nat i
    | None => -1
    end.
Proof.
  unfold find. rewrite clip_inside by (rewrite length_app; lia).
  rewrite Nat2Z.id, skipn_app, skipn_all, Nat.sub_diag. done.
Qed.

Lemma slice_at pre s (n : nat) :
  (n <= length s)%nat ->
  slice (pre ++ s) (Z.of_nat (length pre)) (Z.of_nat (length pre + n))
  = firstn n s.
Proof.
  intros Hn. unfold slice.
  rewrite !clip_inside by (rewrite length_app; lia).
  rewrite Nat2Z.id, skipn_app, skipn_all, Nat.sub_diag. simpl.
  f_equal. lia.
Qed.


End SeqFacts.

Section StripFacts.

Implicit Types (s x y : str) (c : char).

Lemma lstrip_head s c : head (lstrip s) = Some c -> is_space c = false.
Proof.
  induction s as [|a s IH]; simpl; [done|].
  destruct (is_space a) eqn:Ha; [exact IH|].
  simpl. by intros [= <-].
Qed.

Lemma lstrip_fixed s :
  (forall c, head s = Some c -> is_space c = false) -> lstrip s = s.
Proof.
  destruct s as [|a s]; [done|]. intros H. simpl.
  by rewrite (H a eq_refl).
Qed.

Lemma lstrip_lstrip s : lstrip (lstrip s) = lstrip s.
Proof. apply lstrip_fixed, lstrip_head. Qed.

Lemma lstrip_suffix s : exists p, s = p ++ lstrip s.
Proof.
  induction s as [|a s [p IH]]; [by exists []|]. simpl.
  destruct (is_space a).
  - exists (a :: p). simpl. by rewrite <- IH.
  - by exists [].
Qed.

Lemma rstrip_prefix s : exists q, s = rstrip s ++ q.
Proof.
  unfold rstrip. destruct (lstrip_suffix (rev s)) as [p Hp].
  exists (rev p). rewrite <- rev_app_distr, <- Hp. by rewrite rev_involutive.
Qed.

Lemma rstrip_rstrip s : rstrip (rstrip s) = rstrip s.
Proof. unfold rstrip. by rewrite rev_involutive, lstrip_lstrip. Qed.

Lemma strip_head s c : head (strip s) = Some c -> is_space c = false.
Proof.
  unfold strip. intros Hc.
  destruct (rstrip_prefix (lstrip s)) as [q Hq].
  apply (lstrip_head s). rewrite Hq.
  destruct (rstrip (lstrip s)); [discriminate Hc | exact Hc].
Qed.

Lemma last_rev_head s : last (rev s) = head s.
Proof. destruct s as [|a s]; [done|]. simpl. apply last_snoc. Qed.

Lemma strip_last s c : last (strip s) = Some c -> is_space c = false.
Proof.
  unfold strip, rstrip. rewrite last_rev_head. apply lstrip_head.
Qed.

Lemma strip_strip s : strip (strip s) = strip s.
Proof.
  unfold strip at 1.
  rewrite (lstrip_fixed (strip s)) by apply strip_head.
  unfold strip. apply rstrip_rstrip.
Qed.

Lemma lstrip_blank s : Forall (fun c => is_space c = true) s -> lstrip s = [].
Proof.
  induction 1 as [|a s Ha _ IH]; [done|]. simpl. by rewrite Ha.
Qed.

Lemma strip_blank s : Forall (fun c => is_space c = true) s -> strip s = [].
Proof. intros H. unfold strip, rstrip. by rewrite (lstrip_blank s H). Qed.

End StripFacts.

Section FenceFacts.

Implicit Types (pre body rest tail F : str).

Lemma find_first c F pre post :
  ~ In c pre ->
  find (c :: F) (pre ++ (c :: F) ++ post) 0 = Z.of_nat (length pre).
Proof.
  intros Hc. unfold find.
  rewrite clip_inside by lia. change (Z.to_nat 0) with O.
  rewrite skipn_O, find_in_skip, find_in_here by done.
  cbn [fmap option_fmap option_map]. lia.
Qed.

Lemma fence_chars : fence = [96; 96; 96]%N.
Proof. vm_compute. reflexivity. Qed.

Lemma json_fence_chars : json_fence = [96; 96; 96; 106; 115; 111; 110]%N.
Proof. vm_compute. reflexivity. Qed.

(** Between an opening fence and the next closing one. *)
Lemma slice_fenced F pre body rest :
  ~ In 96%N pre -> ~ In 96%N body ->
  let opening := 96%N :: F in
  let response := pre ++ opening ++ body ++ fence ++ rest in
  let start := find opening response 0 + Z.of_nat (length opening) in
  slice response start (find fence response start) = body.
Proof.
  intros Hpre Hbody. cbv zeta.
  rewrite find_first by done.
  rewrite <- Nat2Z.inj_add, <- length_app.
  rewrite (List.app_assoc pre).
  rewrite find_at, fence_chars, find_in_skip, find_in_here by done.
  cbn [fmap option_fmap option_map].
  rewrite Nat.add_0_r, <- Nat2Z.inj_add.
  rewrite slice_at by (rewrite length_app; lia).
  by rewrite firstn_app, firstn_all, Nat.sub_diag, app_nil_r.
Qed.


(** X5.  A reply that wraps its JSON in a [json] fence: the parser gets what
    stands between the fences, stripped. *)
Theorem extract_fenced_json_block pre body rest :
  ~ In 96%N pre -> ~ In 96%N body ->
  extract_fenced (pre ++ json_fence ++ body ++ fence ++ rest) = strip body.
Proof.
  intros Hpre Hbody. unfold extract_fenced.
  rewrite (infixb_complete json_fence)
    by (exists pre, (body ++ fence ++ rest); reflexivity).
  rewrite json_fence_chars.
  change 7 with (Z.of_nat (length [96; 96; 96; 106; 115; 111; 110]%N)).
  by rewrite (slice_fenced [96; 96; 106; 115; 111; 110]%N).
Qed.


(** X7.  A reply without a backtick goes to the parser as it is. *)
Theorem extract_fenced_plain response :
  ~ In 96%N response -> extract_fenced response = response.
Proof.
  intros H. unfold extract_fenced.
  rewrite json_fence_chars, fence_chars.
  by rewrite !infixb_absent.
Qed.

End FenceFacts.

(* ===================================================================== *)
(** ** The AI client, its wrappers and its JSON front *)
(* ===================================================================== *)

Section ClientFacts.

Context {V : Type} (env : Env).
Implicit Types (w : World V) (t : list event).

(** X1.  A CLI that exits with a non-zero status: the wrapper's own error is
    caught by its last handler and wrapped once more, so the text of the
    exception carries the prefix twice, then the standard error; the
    standard output is dropped. *)
Theorem cli_nonzero_exit_message prompt w rc out err :
  rc <> 0 ->
  (subprocess_run env [u "claude"; u "--print"] (Some prompt)
     = Completed rc out err ->
   fst (call_claude_cli env prompt w)
   = Raise (MkExn Exception
              (u "Claude CLI error: " ++ u "Claude CLI error: " ++ err)))
  /\ (subprocess_run env [u "gemini"; prompt] None = Completed rc out err ->
      fst (call_gemini_cli env prompt w)
      = Raise (MkExn Exception
                 (u "Gemini CLI error: " ++ u "Gemini CLI error: " ++ err))).
Proof.
  intros Hrc. split; intros Hrun.
  - rewrite call_claude_cli_eq, Hrun. by destruct rc.
  - rewrite call_gemini_cli_eq, Hrun. by destruct rc.
Qed.

(** X2.  Each CLI wrapper runs exactly one subprocess (claude reads the prompt
    on its standard input, gemini gets it as an argument) and changes
    nothing else.  It returns exactly when the CLI exits with status 0,
    and then the stripped standard output; whatever it raises is a plain
    [Exception]. *)
Theorem cli_wrappers_outcomes prompt w :
  (match fst (call_claude_cli env prompt w) with
   | Ok text =>
     exists out err,
       subprocess_run env [u "claude"; u "--print"] (Some prompt)
       = Completed 0 out err /\ text = strip out
   | Raise e => exn_kind e = Exception
   end)
  /\ snd (call_claude_cli env prompt w)
     = logs [Run [u "claude"; u "--print"] (Some prompt) 120] w
  /\ (match fst (call_gemini_cli env prompt w) with
      | Ok text =>
        exists out err,
          subprocess_run env [u "gemini"; prompt] None
          = Completed 0 out err /\ text = strip out
      | Raise e => exn_kind e = Exception
      end)
  /\ snd (call_gemini_cli env prompt w)
     = logs [Run [u "gemini"; prompt] None 120] w
  /\ (forall out err,
        subprocess_run env [u "claude"; u "--print"] (Some prompt)
        = Completed 0 out err ->
        fst (call_claude_cli env prompt w) = Ok (strip out))
  /\ (forall out err,
        subprocess_run env [u "gemini"; prompt] None = Completed 0 out err ->
        fst (call_gemini_cli env prompt w) = Ok (strip out)).
Proof.
  rewrite call_claude_cli_eq, call_gemini_cli_eq. cbn [fst snd].
  split; [|split; [reflexivity|split; [|split; [reflexivity|split]]]].
  - destruct (subprocess_run env _ _) as [rc out err|e].
    + destruct rc; [by exists out, err|done..].
    + by destruct (exn_kind e).
  - destruct (subprocess_run env _ _) as [rc out err|e].
    + destruct rc; [by exists out, err|done..].
    + by destruct (exn_kind e).
  - by intros out err ->.
  - by intros out err ->.
Qed.

(** X3.  A reply of [call_ai] has no whitespace at either end. *)
Theorem call_ai_reply_is_stripped prompt provider max_tokens w reply :
  fst (call_ai env prompt provider max_tokens w) = Ok (Some reply) ->
  (forall c, head reply = Some c -> is_space c = false)
  /\ (forall c, last reply = Some c -> is_space c = false)
  /\ strip reply = reply.
Proof.
  rewrite call_ai_returns. unfold ai_reply.
  destruct (cli_outcome env provider prompt) as [[rc out err|e]|];
    [|discriminate..].
  destruct rc; [|discriminate..]. intros [= <-].
  split; [apply strip_head|]. split; [apply strip_last|apply strip_strip].
Qed.

(** X4.  [max_tokens] has no effect: the reply and the subprocesses run are
    the same for any two values. *)
Theorem call_ai_ignores_max_tokens prompt provider m1 m2 w :
  fst (call_ai env prompt provider m1 w) = fst (call_ai env prompt provider m2 w)
  /\ List.filter is_run (trace (snd (call_ai env prompt provider m1 w)))
     = List.filter is_run (trace (snd (call_ai env prompt provider m2 w)))
  /\ files (snd (call_ai env prompt provider m1 w))
     = files (snd (call_ai env prompt provider m2 w)).
Proof.
  destruct (call_ai_spec env prompt provider m1 w) as [msgs1 ->].
  destruct (call_ai_spec env prompt provider m2 w) as [msgs2 ->].
  cbn [fst snd trace files logs].
  split; [reflexivity|]. split; [|reflexivity].
  rewrite !List.filter_app. cbn [List.filter is_run].
  rewrite !List.filter_app, !filter_prints by done. reflexivity.
Qed.

Section JsonFacts.

Context (Num : Type) (json_loads : str -> loads_outcome Num).

(** X8.  [call_ai_json] never raises and changes nothing but the trace.  It
    sends the prompt followed by the JSON instruction; a falsy reply
    gives the empty dict; otherwise the text between fences goes to the
    parser, and a text the parser refuses comes back under
    [raw_response], in its extracted form. *)
Theorem call_ai_json_total prompt provider w :
  exists v w' t,
    call_ai_json env Num json_loads prompt provider w = (Ok v, w')
    /\ files w' = files w /\ dirs w' = dirs w /\ stores w' = stores w
    /\ trace w' = trace w ++ t
    /\ List.filter is_run t = cli_runs provider (prompt ++ json_suffix)
    /\ (forall w0 r,
          fst (call_ai env (prompt ++ json_suffix) provider 4000 w0) = Ok r ->
          (falsy r = true -> v = JDict [])
          /\ (forall reply,
                r = Some reply -> truthy reply = true ->
                match json_loads (extract_fenced reply) with
                | Loaded x => v = x
                | DecodeError _ =>
                  v = JDict [(u "raw_response", JStr (extract_fenced reply))]
                end)).
Proof.
  cbv beta iota zeta delta
    [call_ai_json mbind M_bind bind mret M_ret ret print emit].
  destruct (call_ai_spec env (prompt ++ json_suffix) provider 4000 w)
    as [msgs ->].
  assert (forall ms : list str, List.filter is_run
            (CallAI (prompt ++ json_suffix) provider 4000
               :: cli_runs provider (prompt ++ json_suffix)
               ++ List.map Print msgs ++ List.map Print ms)
          = cli_runs provider (prompt ++ json_suffix)) as Hruns.
  { intros ms. cbn [List.filter is_run].
    rewrite !List.filter_app, !filter_prints, filter_run_cli_runs by done.
    by rewrite !app_nil_r. }
  destruct (ai_reply env (prompt ++ json_suffix) provider)
    as [[|c reply]|] eqn:Hreply.
  - eexists (JDict []), _, _. split; [reflexivity|].
    cbn [files dirs stores trace logs]. repeat (split; [reflexivity|]).
    split; [etrans; [|exact (Hruns [])]; cbn [List.map]; by rewrite app_nil_r|].
    intros w0 r Hr. rewrite call_ai_returns, Hreply in Hr.
    injection Hr as <-. split; [done|]. by intros reply [= <-] Ht.
  - destruct (json_loads (extract_fenced (c :: reply))) as [x|msg] eqn:Hload.
    + eexists x, _, _. split; [reflexivity|].
      cbn [files dirs stores trace logs]. repeat (split; [reflexivity|]).
      split; [etrans; [|exact (Hruns [])]; cbn [List.map]; by rewrite app_nil_r|].
      intros w0 r Hr. rewrite call_ai_returns, Hreply in Hr.
      injection Hr as <-. split; [done|].
      intros reply' [= <-] _. by rewrite Hload.
    + eexists _, _, _. rewrite !log_logs, !logs_logs.
      split; [reflexivity|].
      cbn [files dirs stores trace logs]. repeat (split; [reflexivity|]).
      split.
      { rewrite !List.filter_app. cbn [List.filter is_run].
        rewrite List.filter_app, filter_prints, filter_run_cli_runs by done.
        by rewrite !app_nil_r. }
      intros w0 r Hr. rewrite call_ai_returns, Hreply in Hr.
      injection Hr as <-. split; [done|].
      intros reply' [= <-] _. by rewrite Hload.
  - eexists (JDict []), _, _. split; [reflexivity|].
    cbn [files dirs stores trace logs]. repeat (split; [reflexivity|]).
    split; [etrans; [|exact (Hruns [])]; cbn [List.map]; by rewrite app_nil_r|].
    intros w0 r Hr. rewrite call_ai_returns, Hreply in Hr.
    injection Hr as <-. split; [done|]. by intros reply [= ].
Qed.

End JsonFacts.

(** X9.  [test_ai_clients] never raises and tries both CLIs in turn, gemini
    also when claude failed. *)
Theorem test_ai_clients_runs_both w :
  exists w',
    test_ai_clients env w = (Ok tt, w')
    /\ files w' = files w /\ dirs w' = dirs w /\ stores w' = stores w
    /\ List.filter is_run (trace w')
       = List.filter is_run (trace w)
         ++ [Run [u "claude"; u "--print"] (Some claude_test_prompt) 120;
             Run [u "gemini"; gemini_test_prompt] None 120].
Proof.
  cbv beta iota zeta delta
    [test_ai_clients mbind M_bind bind mret M_ret ret print emit try_except].
  rewrite call_claude_cli_eq.
  destruct (subprocess_run env [u "claude"; u "--print"] _)
    as [rc1 out1 err1|e1];
    [destruct rc1|destruct (exn_kind e1)];
    cbv beta iota; rewrite call_gemini_cli_eq;
    (destruct (subprocess_run env [u "gemini"; _] _)
       as [rc2 out2 err2|e2];
     [destruct rc2|destruct (exn_kind e2)]);
    cbv beta iota; rewrite ?log_logs, ?logs_logs;
    (eexists; split; [reflexivity|];
     cbn [files dirs stores trace logs];
     repeat (split; [reflexivity|]);
     rewrite List.filter_app; reflexivity).
Qed.

End ClientFacts.

(* ===================================================================== *)
(** ** The generator and the disk *)
(* ===================================================================== *)

Section GeneratorDisk.

Context {V : Type} (lower : str -> str) (env : Env) (backend : Backend V).
Context (chapter_num : Z) (chapter_title outline book_dir provider : str).
Implicit Types (w : World V) (t : list event).

#[local] Abbreviation generate :=
  (generate_chapter_with_coherence lower env backend
     chapter_num chapter_title outline book_dir provider).
#[local] Abbreviation prompt :=
  (prompt_for env backend chapter_num chapter_title outline book_dir).
#[local] Abbreviation path :=
  (output_path_of lower book_dir chapter_num chapter_title).

(** What an invocation with a usable reply leaves on disk, by the first
    refusal of the filesystem. *)
Lemma generate_on_reply_disk w content :
  ai_reply env (prompt w) provider = Some content ->
  truthy content = true ->
  exists res w',
    generate w = (res, w')
    /\ files w' =
       match mkdir_fault env (to_str (parent path)) with
       | Some _ => files w
       | None =>
         match open_fault env (to_str path) with
         | Some _ => files w
         | None =>
           match write_fault env (to_str path) content with
           | Some (_, partial) =>
             <[to_str path := partial]> (<[to_str path := []]> (files w))
           | None =>
             <[to_str path := content]> (<[to_str path := []]> (files w))
           end
         end
       end
    /\ dirs w' =
       match mkdir_fault env (to_str (parent path)) with
       | Some _ => dirs w
       | None =>
         list_to_set (List.map to_str (with_ancestors (parent path))) ∪ dirs w
       end
    /\ res =
       match mkdir_fault env (to_str (parent path)) with
       | Some ex => Raise ex
       | None =>
         match open_fault env (to_str path) with
         | Some ex => Raise ex
         | None =>
           match write_fault env (to_str path) content with
           | Some (ex, _) => Raise ex
           | None => Ok (Some content)
           end
         end
       end
    /\ (res <> Ok (Some content) -> stores w' = stores w).
Proof.
  unfold prompt_for, context_for, handle_of.
  intros Hreply Htruthy.
  destruct content as [|c content]; [discriminate Htruthy|].
  gen_head Hn; cbv iota in Hreply; rewrite Hreply; cbv beta iota; norm_world;
    gen_persist.
  all: do 2 eexists; split; [reflexivity|]; world_simpl.
  all: split; [reflexivity|].
  all: split; [reflexivity|].
  all: split; [reflexivity|].
  all: first [reflexivity | intros Hres; by destruct Hres].
Qed.

(** X10.  A provider other than claude and gemini is not refused: the
    invocation returns [None], having run no subprocess and touched
    neither the filesystem nor the store. *)
Theorem unknown_provider_generates_nothing w :
  provider <> u "claude" -> provider <> u "gemini" ->
  exists w' t,
    generate w = (Ok None, w')
    /\ files w' = files w /\ dirs w' = dirs w /\ stores w' = stores w
    /\ trace w' = trace w ++ t
    /\ List.filter is_run t = []
    /\ List.filter is_fs t = [].
Proof.
  intros Hc Hg.
  assert (ai_reply env (prompt w) provider = None) as Hreply.
  { unfold ai_reply, cli_outcome. by rewrite cli_request_unknown. }
  destruct (generate_on_falsy lower env backend chapter_num chapter_title
              outline book_dir provider w)
    as (w' & t & Heq & Hf & Hd & Hs & Ht & Hcalls); [by rewrite Hreply|].
  exists w', t. repeat (split; [assumption|]).
  unfold cli_runs in Hcalls. rewrite cli_request_unknown in Hcalls by done.
  rewrite (filter_calls is_run), (filter_calls is_fs), Hcalls by done.
  unfold context_calls. destruct (1 <? chapter_num); split; reflexivity.
Qed.

(** X11.  A CLI that exits with status 0 and prints only whitespace counts as
    a failed generation: [None], nothing written, nothing indexed. *)
Theorem blank_output_is_failure w argv input out err :
  cli_request provider (prompt w) = Some (argv, input) ->
  subprocess_run env argv input = Completed 0 out err ->
  Forall (fun c => is_space c = true) out ->
  exists w',
    generate w = (Ok None, w')
    /\ files w' = files w /\ dirs w' = dirs w /\ stores w' = stores w.
Proof.
  intros Hreq Hrun Hblank.
  destruct (generate_on_falsy lower env backend chapter_num chapter_title
              outline book_dir provider w)
    as (w' & t & Heq & Hf & Hd & Hs & _).
  { unfold ai_reply, cli_outcome. rewrite Hreq, Hrun.
    by rewrite strip_blank. }
  by exists w'.
Qed.

(** X12.  The chapter file is opened for writing before the text is safe: when
    the write is refused after the file was opened, the invocation
    raises, the file holds only what reached the disk in place of its
    earlier content, and the store is not updated. *)
Theorem failed_write_truncates_chapter w content ex partial :
  ai_reply env (prompt w) provider = Some content ->
  truthy content = true ->
  mkdir_fault env (to_str (parent path)) = None ->
  open_fault env (to_str path) = None ->
  write_fault env (to_str path) content = Some (ex, partial) ->
  exists w',
    generate w = (Raise ex, w')
    /\ files w' !! to_str path = Some partial
    /\ stores w' = stores w.
Proof.
  intros Hreply Htruthy Hmk Hop Hwr.
  destruct (generate_on_reply_disk w content Hreply Htruthy)
    as (res & w' & Heq & Hf & Hd & Hres & Hs).
  rewrite Hmk, Hop, Hwr in Hf, Hres. subst res.
  exists w'. split; [exact Heq|].
  split; [rewrite Hf; apply lookup_insert_eq|by apply Hs].
Qed.

(** X13.  The text an invocation returns is the stripped standard output of
    the provider's CLI, which exited with status 0; it is not empty and
    it is what the chapter file holds. *)
Theorem returned_text_is_saved_output w content w' :
  generate w = (Ok (Some content), w') ->
  content <> []
  /\ files w' !! to_str path = Some content
  /\ exists argv input out err,
       cli_request provider (prompt w) = Some (argv, input)
       /\ subprocess_run env argv input = Completed 0 out err
       /\ content = strip out.
Proof.
  intros Hgen.
  destruct (generate_returns_some lower env backend chapter_num chapter_title
              outline book_dir provider w content w' Hgen)
    as (Hreply & Htruthy & _).
  destruct (generate_some_saved lower env backend chapter_num chapter_title
              outline book_dir provider w content w' Hgen) as (Hfile & _).
  split; [by destruct content|]. split; [exact Hfile|].
  unfold ai_reply, cli_outcome in Hreply.
  destruct (cli_request provider (prompt w)) as [[argv input]|];
    [|discriminate Hreply].
  destruct (subprocess_run env argv input) as [rc out err|e] eqn:Hrun;
    [|discriminate Hreply].
  destruct rc; [|discriminate Hreply..]. injection Hreply as <-.
  by exists argv, input, out, err.
Qed.


End GeneratorDisk.

(* ===================================================================== *)
(** ** Chapter numbers and file names *)
(* ===================================================================== *)

Section ChapterNames.

Context (lower : str -> str).

Lemma read_dec n : read_int (dec n) = n.
Proof.
  unfold read_int, dec. rewrite List.map_map.
  rewrite (List.map_ext _ (fun a => a)) by apply ascii_N_embedding.
  rewrite List.map_id, string_of_list_ascii_of_string.
  rewrite NilZero.isi; [apply DecimalZ.of_to|..].
  - destruct n as [|p|p]; [discriminate| |discriminate].
    intros [= H]. by apply DecimalPos.Unsigned.to_uint_nonnil in H.
  - destruct n as [|p|p]; [discriminate|discriminate|].
    intros [= H]. by apply DecimalPos.Unsigned.to_uint_nonnil in H.
Qed.

Lemma read_dec02 n : read_int (dec02 n) = n.
Proof.
  unfold dec02.
  destruct ((0 <=? n) && (n <? 10)) eqn:Hn; [|apply read_dec].
  apply andb_true_iff in Hn as [H0 H10].
  apply Z.leb_le in H0. apply Z.ltb_lt in H10.
  assert (exists k, (k < 10)%nat /\ n = Z.of_nat k) as (k & Hk & ->)
    by (exists (Z.to_nat n); lia).
  do 10 (destruct k as [|k]; [vm_compute; reflexivity|]). lia.
Qed.

Lemma dec02_chars n : Forall dec_char (dec02 n).
Proof.
  unfold dec02. destruct ((0 <=? n) && (n <? 10)); [|apply dec_chars].
  constructor; [right; simpl; lia|apply dec_chars].
Qed.

(** Two texts that agree up to the end of their first runs have the same
    first run. *)
Lemma run_inj (P : char -> Prop) l1 l2 x y r1 r2 :
  Forall P l1 -> Forall P l2 -> ~ P x -> ~ P y ->
  l1 ++ x :: r1 = l2 ++ y :: r2 -> l1 = l2.
Proof.
  intros H1. revert l2. induction H1 as [|a l1 Ha H1 IH]; intros l2 H2 Hx Hy Heq.
  - destruct H2 as [|b l2 Hb H2]; [done|].
    injection Heq as -> _. by destruct Hx.
  - destruct H2 as [|b l2 Hb H2].
    + injection Heq as -> _. by destruct Hy.
    + injection Heq as -> Heq. f_equal. by apply IH.
Qed.

Lemma chapter_file_name_number n m t1 t2 :
  chapter_file_name lower n t1 = chapter_file_name lower m t2 -> n = m.
Proof.
  unfold chapter_file_name. intros Heq.
  apply app_inv_head in Heq.
  change (u "_") with [95%N] in Heq. cbn [app] in Heq.
  apply (run_inj dec_char) in Heq.
  - by rewrite <- (read_dec02 n), Heq, read_dec02.
  - apply dec02_chars.
  - apply dec02_chars.
  - unfold dec_char. lia.
  - unfold dec_char. lia.
Qed.

(** X15.  Chapters with different numbers never share a file: the chapter
    paths of one book, for titles without a slash, coincide only when
    the numbers do. *)
Theorem distinct_chapters_distinct_files book_dir n m t1 t2 :
  ~ In 47%N (lower t1) -> ~ In 47%N (lower t2) ->
  to_str (output_path_of lower book_dir n t1)
  = to_str (output_path_of lower book_dir m t2) ->
  n = m.
Proof.
  intros Ht1 Ht2.
  rewrite (path_of_plain_name lower n t1 book_dir Ht1).
  rewrite (path_of_plain_name lower m t2 book_dir Ht2).
  assert (parts (chapters_dir book_dir) <> []) as Hparts.
  { rewrite chapters_dir_eq. cbn [parts].
    by destruct (parts (parse book_dir)). }
  rewrite !to_str_snoc by exact Hparts.
  intros Heq. do 2 apply app_inv_head in Heq.
  rewrite <- !chapter_file_name_eq in Heq.
  by apply chapter_file_name_number in Heq.
Qed.

End ChapterNames.

Lemma distinct_chapters_distinct_files_witness :
  to_str (output_path_of ascii_lower (u ".") 1 (u "Intro"))
  = to_str (output_path_of ascii_lower (u ".") 1 (u "intro"))
  /\ (1 : Z) = 1.
Proof.
  split; [vm_compute; reflexivity|].
  apply (distinct_chapters_distinct_files ascii_lower (u ".") 1 1
           (u "Intro") (u "intro"));
    [vm_compute; intuition discriminate..|vm_compute; reflexivity].
Defined.

(* ===================================================================== *)
(** ** The research agent *)
(* ===================================================================== *)

Section ResearchFacts.

Context {V : Type} (env : Env) (renv : ResearchEnv).
Implicit Types (w : World V) (t : list event).

Lemma cli_runs_claude p :
  cli_runs (u "claude") p = [Run [u "claude"; u "--print"] (Some p) 120].
Proof.
  unfold cli_runs, cli_request.
  destruct (decide (u "claude" = u "claude")); done.
Qed.

Lemma cli_runs_gemini p :
  cli_runs (u "gemini") p = [Run [u "gemini"; p] None 120].
Proof.
  unfold cli_runs, cli_request.
  destruct (decide (u "gemini" = u "claude")) as [H|_];
    [vm_compute in H; discriminate H|].
  destruct (decide (u "gemini" = u "gemini")); done.
Qed.

Lemma search_papers_spec query databases limit w :
  exists t,
    search_papers renv query databases limit w
    = (Ok (found_papers renv query databases limit), logs t w)
    /\ calls t = [].
Proof.
  cbv beta iota zeta delta
    [search_papers search_arxiv search_scholar search_acm found_papers
     mbind M_bind bind mret M_ret ret print emit].
  destruct (listed (u "arxiv") databases);
    [destruct (arxiv_search renv query _)|];
    destruct (listed (u "scholar") databases);
    destruct (listed (u "acm") databases);
    cbv beta iota; rewrite ?app_nil_r, ?log_logs, ?logs_logs;
    (eexists; split; [reflexivity|]);
    rewrite <- ?List.app_assoc; reflexivity.
Qed.

Lemma create_basic_summary_nonempty papers : create_basic_summary papers <> [].
Proof.
  unfold create_basic_summary. intros H.
  apply app_eq_nil in H as [H _]. vm_compute in H. discriminate H.
Qed.

Lemma synthesize_spec papers query w :
  exists t,
    synthesize_with_ai env papers query w
    = (Ok (synthesis_of env papers query), logs t w)
    /\ List.filter is_run t = synthesis_runs env papers query
    /\ List.filter is_fs t = []
    /\ (papers = [] -> t = []).
Proof.
  unfold synthesis_of, synthesis_runs, synthesis_request.
  destruct papers as [|p papers].
  { exists []. split; [|done].
    cbv beta iota delta [synthesize_with_ai ret logs].
    destruct w as [fs ds ss tr].
    cbn [files dirs stores trace]. by rewrite app_nil_r. }
  cbv beta iota zeta delta
    [synthesize_with_ai try_except mbind M_bind bind mret M_ret ret
     print emit].
  set (request := synthesis_prompt query _).
  norm_world. gen_call_ai. norm_world.
  destruct (ai_reply env request (u "claude")) as [[|c r]|];
    cbv beta iota; norm_world.
  2:{ eexists. split; [reflexivity|].
      rewrite cli_runs_claude. cbn [falsy truthy negb].
      split; [|split; [|discriminate]]; trace_filter; reflexivity. }
  all: gen_call_ai; norm_world.
  all: destruct (ai_reply env request (u "gemini")) as [[|c' r']|];
    cbv beta iota; norm_world.
  all: eexists; split; [reflexivity|].
  all: rewrite cli_runs_claude, cli_runs_gemini; cbn [falsy truthy negb].
  all: split; [|split; [|discriminate]]; trace_filter; reflexivity.
Qed.

Lemma synthesis_of_nonempty papers query : synthesis_of env papers query <> [].
Proof.
  unfold synthesis_of. destruct papers as [|p papers].
  { intros H. vm_compute in H. discriminate H. }
  destruct (ai_reply env _ (u "claude")) as [[|c r]|]; [|done|].
  all: destruct (ai_reply env _ (u "gemini")) as [[|c' r']|];
    first [done | apply create_basic_summary_nonempty].
Qed.

Lemma write_each_frame name chunks w :
  dirs (snd (write_each env name chunks w)) = dirs w
  /\ stores (snd (write_each env name chunks w)) = stores w
  /\ (exists t, trace (snd (write_each env name chunks w)) = trace w ++ t
                /\ List.filter is_run t = [])
  /\ (forall other, other <> name ->
        files (snd (write_each env name chunks w)) !! other = files w !! other).
Proof.
  revert w. induction chunks as [|c rest IH]; intros w.
  { cbn [write_each ret snd]. do 2 (split; [reflexivity|]). split; [|done].
    exists []. by rewrite app_nil_r. }
  cbn [write_each]. cbv zeta.
  destruct (write_fault env name c) as [[e partial]|].
  - cbn [snd files dirs stores trace set_files log].
    do 2 (split; [reflexivity|]). split.
    + by exists [Write name c].
    + intros other Hother. by rewrite lookup_insert_ne.
  - destruct (IH (set_files
                    (<[name := default [] (files (log (Write name c) w) !! name)
                               ++ c]> (files (log (Write name c) w)))
                    (log (Write name c) w)))
      as (Hd & Hs & (t & Ht & Hrun) & Hf).
    rewrite Hd, Hs. cbn [files dirs stores trace set_files log] in *.
    do 2 (split; [reflexivity|]). split.
    + exists (Write name c :: t). rewrite Ht, <- List.app_assoc.
      split; [reflexivity|exact Hrun].
    + intros other Hother. rewrite Hf by done. by rewrite lookup_insert_ne.
Qed.

Lemma write_each_ok name chunks w sofar :
  (forall c, write_fault env name c = None) ->
  files w !! name = Some sofar ->
  fst (write_each env name chunks w) = Ok tt
  /\ files (snd (write_each env name chunks w)) !! name
     = Some (sofar ++ List.concat chunks).
Proof.
  intros Hwr. revert w sofar.
  induction chunks as [|c rest IH]; intros w sofar Hsofar.
  { cbn [write_each ret fst snd List.concat]. by rewrite app_nil_r. }
  cbn [write_each]. cbv zeta. rewrite Hwr.
  cbn [files log]. rewrite Hsofar. cbn [default from_option id].
  destruct (IH (set_files (<[name := sofar ++ c]> (files w))
                  (log (Write name c) w)) (sofar ++ c)) as (Hres & Hfile).
  { cbn [files set_files log]. apply lookup_insert_eq. }
  split; [exact Hres|]. rewrite Hfile. cbn [List.concat].
  by rewrite <- List.app_assoc.
Qed.

Lemma write_chunks_frame p chunks w :
  dirs (snd (write_chunks env p chunks w)) = dirs w
  /\ stores (snd (write_chunks env p chunks w)) = stores w
  /\ (exists t, trace (snd (write_chunks env p chunks w)) = trace w ++ t
                /\ List.filter is_run t = [])
  /\ (forall other, other <> to_str p ->
        files (snd (write_chunks env p chunks w)) !! other = files w !! other).
Proof.
  cbv beta zeta delta [write_chunks].
  destruct (open_fault env (to_str p)).
  { cbn [snd files dirs stores trace log].
    do 2 (split; [reflexivity|]). split; [|done].
    by exists [OpenW (to_str p)]. }
  destruct (write_each_frame (to_str p) chunks
              (set_files (<[to_str p := []]> (files (log (OpenW (to_str p)) w)))
                 (log (OpenW (to_str p)) w)))
    as (Hd & Hs & (t & Ht & Hrun) & Hf).
  destruct (write_each env (to_str p) chunks _) as [[[]|e] w2];
    cbn [snd files dirs stores trace set_files log] in *.
  - rewrite Hd, Hs, Ht. do 2 (split; [reflexivity|]). split.
    + exists (OpenW (to_str p) :: t ++ [Saved (to_str p) (List.concat chunks)]).
      rewrite <- !List.app_assoc. split; [reflexivity|].
      cbn [List.filter is_run]. rewrite List.filter_app, Hrun. reflexivity.
    + intros other Hother. rewrite Hf by done. by rewrite lookup_insert_ne.
  - rewrite Hd, Hs, Ht. do 2 (split; [reflexivity|]). split.
    + exists (OpenW (to_str p) :: t).
      rewrite <- !List.app_assoc. split; [reflexivity|exact Hrun].
    + intros other Hother. rewrite Hf by done. by rewrite lookup_insert_ne.
Qed.

Lemma write_chunks_ok p chunks w :
  open_fault env (to_str p) = None ->
  (forall c, write_fault env (to_str p) c = None) ->
  fst (write_chunks env p chunks w) = Ok tt
  /\ files (snd (write_chunks env p chunks w)) !! to_str p
     = Some (List.concat chunks).
Proof.
  intros Hop Hwr. cbv beta zeta delta [write_chunks]. rewrite Hop.
  destruct (write_each_ok (to_str p) chunks
              (set_files (<[to_str p := []]> (files (log (OpenW (to_str p)) w)))
                 (log (OpenW (to_str p)) w)) [] Hwr) as (Hres & Hfile).
  { cbn [files set_files log]. apply lookup_insert_eq. }
  destruct (write_each env (to_str p) chunks _) as [[[]|e] w2];
    cbn [fst snd files log] in *; [done|discriminate Hres].
Qed.

Lemma synthesis_path_str :
  to_str synthesis_path = u "outputs/research_synthesis.md".
Proof. vm_compute. reflexivity. Qed.

Lemma outputs_str : to_str (parse (u "outputs")) = u "outputs".
Proof. vm_compute. reflexivity. Qed.

#[local] Abbreviation report := (u "outputs/research_synthesis.md").

(** The filesystem refuses nothing [save_research_results] asks for. *)
#[local] Abbreviation report_writable :=
  (mkdir_fault env (u "outputs") = None
   /\ open_fault env report = None
   /\ forall c, write_fault env report c = None).

Lemma save_spec synthesis query w :
  exists res w' t,
    save_research_results env renv synthesis query w = (res, w')
    /\ trace w' = trace w ++ t
    /\ List.filter is_run t = []
    /\ stores w' = stores w
    /\ (forall other, other <> report -> files w' !! other = files w !! other)
    /\ (report_writable ->
        res = Ok tt
        /\ files w' !! report = Some (report_text renv synthesis query)).
Proof.
  cbv beta iota zeta delta
    [save_research_results mkdir_parents get_current_date
     mbind M_bind bind mret M_ret ret print emit].
  rewrite outputs_str.
  destruct (mkdir_fault env (u "outputs")) as [e|].
  { do 3 eexists. split; [reflexivity|]. cbn [trace stores files log].
    split; [reflexivity|]. split; [reflexivity|]. split; [reflexivity|].
    split; [done|]. by intros (Hmk & _). }
  match goal with
  | |- context [write_chunks env synthesis_path ?cs ?w1] =>
    destruct (write_chunks_frame synthesis_path cs w1)
      as (Hd & Hs & (t & Ht & Hrun) & Hf);
    pose proof (write_chunks_ok synthesis_path cs w1) as Hok;
    destruct (write_chunks env synthesis_path cs w1) as [[[]|e] w2]
  end.
  all: rewrite synthesis_path_str in *.
  all: cbn [fst snd trace stores files dirs log set_dirs] in *.
  - exists (Ok tt), (log (Print (u "  " ++ [226; 339; 8220]%N
                                 ++ u " Saved: outputs/research_synthesis.md")) w2).
    eexists (Mkdir (u "outputs") :: t ++ [_]).
    split; [reflexivity|]. cbn [trace stores files log]. rewrite Ht.
    split; [by rewrite <- !List.app_assoc|].
    split; [cbn [List.filter is_run]; by rewrite List.filter_app, Hrun|].
    split; [exact Hs|]. split; [exact Hf|].
    intros (_ & Hop & Hwr). split; [reflexivity|].
    destruct (Hok Hop Hwr) as (_ & Hfile). etrans; [exact Hfile|].
    unfold report_text. cbn [List.concat]. by rewrite app_nil_r.
  - exists (Raise e), w2, (Mkdir (u "outputs") :: t).
    split; [reflexivity|]. rewrite Ht.
    split; [by rewrite <- !List.app_assoc|].
    split; [exact Hrun|].
    split; [exact Hs|]. split; [exact Hf|].
    intros (_ & Hop & Hwr). by destruct (Hok Hop Hwr) as (Hres & _).
Qed.

Lemma synthesis_of_nil query :
  synthesis_of env [] query = u "No papers found to synthesize.".
Proof. vm_compute. reflexivity. Qed.

Lemma run_research_spec args w :
  exists res w' t,
    run_research env renv args w = (res, w')
    /\ trace w' = trace w ++ t
    /\ List.filter is_run t
       = synthesis_runs env
           (found_papers renv (query args) (databases args) (limit args))
           (query args)
    /\ stores w' = stores w
    /\ (forall other, other <> report -> files w' !! other = files w !! other)
    /\ (report_writable ->
        res = Ok tt
        /\ files w' !! report
           = Some (report_text renv
                     (synthesis_of env
                        (found_papers renv (query args) (databases args)
                           (limit args))
                        (query args))
                     (query args))
        /\ last t = Some (Print (u "Bibliography: outputs/bibliography.bib"))).
Proof.
  cbv beta iota zeta delta
    [run_research mbind M_bind bind mret M_ret ret print emit].
  norm_world.
  match goal with
  | |- context [search_papers renv ?q ?d ?l ?w0] =>
    destruct (search_papers_spec q d l w0) as (t1 & Heq1 & Hcalls1);
    rewrite Heq1; clear Heq1
  end.
  set (papers := found_papers renv _ _ _). norm_world.
  match goal with
  | |- context [synthesize_with_ai env papers ?q ?w0] =>
    destruct (synthesize_spec papers q w0) as (t2 & Heq2 & Hrun2 & _);
    rewrite Heq2; clear Heq2
  end.
  set (synthesis := synthesis_of env papers _). norm_world.
  match goal with
  | |- context [save_research_results env renv synthesis ?q ?w0] =>
    destruct (save_spec synthesis q w0)
      as (res & w3 & t3 & Heq3 & Ht3 & Hrun3 & Hs3 & Hf3 & Hok3);
    rewrite Heq3; clear Heq3
  end.
  cbn [trace stores files logs] in Ht3, Hs3, Hf3.
  assert (List.filter is_run t1 = []) as Hrun1.
  { by rewrite (filter_calls is_run), Hcalls1. }
  destruct res as [[]|e].
  - do 3 eexists. split; [reflexivity|]. norm_world.
    cbn [trace stores files logs]. rewrite Ht3.
    split; [by rewrite <- !List.app_assoc|].
    split.
    { rewrite !List.filter_app. cbn [List.filter is_run].
      rewrite ?List.filter_app, Hrun1, Hrun2, Hrun3.
      cbn [List.filter is_run app]. by rewrite ?app_nil_r. }
    split; [exact Hs3|]. split; [exact Hf3|].
    intros Hw. destruct (Hok3 Hw) as (_ & Hfile).
    split; [reflexivity|]. split; [exact Hfile|].
    rewrite !last_app. reflexivity.
  - do 3 eexists. split; [reflexivity|]. rewrite Ht3.
    split; [by rewrite <- !List.app_assoc|].
    split.
    { rewrite !List.filter_app. cbn [List.filter is_run].
      rewrite ?List.filter_app, Hrun1, Hrun2, Hrun3.
      cbn [List.filter is_run app]. by rewrite ?app_nil_r. }
    split; [exact Hs3|]. split; [exact Hf3|].
    intros Hw. by destruct (Hok3 Hw) as (Hres & _).
Qed.


(** X17.  With papers to synthesize, [synthesize_with_ai] asks claude first
    and gemini only when claude yields nothing usable, both with the
    same prompt built from the first ten papers; it returns the first
    usable reply, else the basic summary.  It never raises and touches
    no file. *)
Theorem synthesize_fallback_order papers query w :
  papers <> [] ->
  let request := synthesis_request papers query in
  exists t,
    synthesize_with_ai env papers query w
    = (Ok (match ai_reply env request (u "claude") with
           | Some ((_ :: _) as response) => response
           | _ =>
             match ai_reply env request (u "gemini") with
             | Some ((_ :: _) as response) => response
             | _ => create_basic_summary papers
             end
           end), logs t w)
    /\ List.filter is_run t
       = Run [u "claude"; u "--print"] (Some request) 120
         :: (if falsy (ai_reply env request (u "claude"))
             then [Run [u "gemini"; request] None 120] else [])
    /\ List.filter is_fs t = [].
Proof.
  intros Hpapers request.
  destruct (synthesize_spec papers query w) as (t & Heq & Hrun & Hfs & _).
  exists t. destruct papers as [|p papers]; [done|].
  split; [exact Heq|]. split; [exact Hrun|exact Hfs].
Qed.

(** X18.  [synthesize_with_ai] always returns a text that is not empty, and
    changes nothing but the trace. *)
Theorem synthesize_never_empty papers query w :
  exists text t,
    synthesize_with_ai env papers query w = (Ok text, logs t w)
    /\ text <> [].
Proof.
  destruct (synthesize_spec papers query w) as (t & Heq & _).
  exists (synthesis_of env papers query), t.
  split; [exact Heq|apply synthesis_of_nonempty].
Qed.

(** X20.  When the filesystem refuses nothing, [run_research] returns, and
    the report holds the title, the query, the date, a rule and the
    synthesis of the papers found, in that order. *)
Theorem run_research_report args w :
  mkdir_fault env (u "outputs") = None ->
  open_fault env (u "outputs/research_synthesis.md") = None ->
  (forall c, write_fault env (u "outputs/research_synthesis.md") c = None) ->
  exists w' text,
    run_research env renv args w = (Ok tt, w')
    /\ (forall w0,
          fst (synthesize_with_ai env
                 (found_papers renv (query args) (databases args) (limit args))
                 (query args) w0) = Ok text)
    /\ files w' !! u "outputs/research_synthesis.md"
       = Some (u "# Research Synthesis" ++ nl ++ nl ++
               u "**Query:** " ++ query args ++ nl ++ nl ++
               u "**Date:** " ++ current_date renv ++ nl ++ nl ++
               u "---" ++ nl ++ nl ++
               text).
Proof.
  intros Hmk Hop Hwr.
  destruct (run_research_spec args w)
    as (res & w' & t & Heq & _ & _ & _ & _ & Hok).
  destruct Hok as (-> & Hfile & _); [by split|].
  exists w', (synthesis_of env
                (found_papers renv (query args) (databases args) (limit args))
                (query args)).
  split; [exact Heq|]. split.
  { intros w0. by destruct (synthesize_spec
                              (found_papers renv (query args) (databases args)
                                 (limit args)) (query args) w0) as (t0 & -> & _). }
  etrans; [exact Hfile|]. unfold report_text.
  by rewrite <- !List.app_assoc.
Qed.

(** X21.  When no paper is found (arXiv not among the databases, its package
    missing, its search failing or empty), [run_research] calls no AI:
    it runs no subprocess, and the report it writes ends in the
    no-papers sentence. *)
Theorem no_papers_no_ai_call args w :
  found_papers renv (query args) (databases args) (limit args) = [] ->
  exists res w' t,
    run_research env renv args w = (res, w')
    /\ trace w' = trace w ++ t
    /\ List.filter is_run t = []
    /\ (mkdir_fault env (u "outputs") = None ->
        open_fault env (u "outputs/research_synthesis.md") = None ->
        (forall c, write_fault env (u "outputs/research_synthesis.md") c = None) ->
        res = Ok tt
        /\ files w' !! u "outputs/research_synthesis.md"
           = Some (report_text renv (u "No papers found to synthesize.")
                     (query args))).
Proof.
  intros Hnone.
  destruct (run_research_spec args w)
    as (res & w' & t & Heq & Ht & Hrun & _ & _ & Hok).
  rewrite Hnone in Hrun, Hok. rewrite synthesis_of_nil in Hok.
  exists res, w', t. split; [exact Heq|]. split; [exact Ht|].
  split; [exact Hrun|].
  intros Hmk Hop Hwr.
  destruct Hok as (Hres & Hfile & _); [by split|].
  split; [exact Hres|exact Hfile].
Qed.

(** X22.  Whatever the outcome, [run_research] changes no file but the
    report and leaves the stores alone.  In particular the bibliography
    it announces in its last line is never written. *)
Theorem run_research_writes_one_file args w :
  exists res w' t,
    run_research env renv args w = (res, w')
    /\ trace w' = trace w ++ t
    /\ stores w' = stores w
    /\ (forall other,
          other <> u "outputs/research_synthesis.md" ->
          files w' !! other = files w !! other)
    /\ files w' !! u "outputs/bibliography.bib"
       = files w !! u "outputs/bibliography.bib"
    /\ (mkdir_fault env (u "outputs") = None ->
        open_fault env (u "outputs/research_synthesis.md") = None ->
        (forall c, write_fault env (u "outputs/research_synthesis.md") c = None) ->
        last t = Some (Print (u "Bibliography: outputs/bibliography.bib"))).
Proof.
  destruct (run_research_spec args w)
    as (res & w' & t & Heq & Ht & _ & Hs & Hf & Hok).
  exists res, w', t. split; [exact Heq|]. split; [exact Ht|].
  split; [exact Hs|]. split; [exact Hf|]. split.
  { apply Hf. intros H. vm_compute in H. discriminate H. }
  intros Hmk Hop Hwr. destruct Hok as (_ & _ & Hlast); [by split|].
  exact Hlast.
Qed.

(** X19.  Only the first ten papers reach the AI: papers after the tenth
    change neither the prompt nor the subprocesses run. *)
Theorem synthesis_reads_ten_papers papers extra query w :
  (10 <= length papers)%nat ->
  synthesis_request (papers ++ extra) query = synthesis_request papers query
  /\ List.filter is_run
       (trace (snd (synthesize_with_ai env (papers ++ extra) query w)))
     = List.filter is_run
         (trace (snd (synthesize_with_ai env papers query w))).
Proof.
  intros Hlen.
  assert (synthesis_request (papers ++ extra) query
          = synthesis_request papers query) as Hreq.
  { unfold synthesis_request. by rewrite take_app_le. }
  split; [exact Hreq|].
  destruct (synthesize_spec (papers ++ extra) query w) as (t1 & -> & Hrun1 & _).
  destruct (synthesize_spec papers query w) as (t2 & -> & Hrun2 & _).
  cbn [snd trace logs]. rewrite !List.filter_app, Hrun1, Hrun2. f_equal.
  destruct papers as [|p papers]; [simpl in Hlen; lia|].
  unfold synthesis_runs. cbn [app].
  change (p :: papers ++ extra) with ((p :: papers) ++ extra).
  by rewrite Hreq.
Qed.

End ResearchFacts.

(* ===================================================================== *)
(** ** Further scenarios, run *)
(* ===================================================================== *)

Lemma cli_nonzero_exit_message_witness :
  fst (call_claude_cli env_failing (u "Di hola") empty_world)
  = Raise (MkExn Exception
             (u "Claude CLI error: " ++ u "Claude CLI error: " ++ u "boom")).
Proof.
  apply (cli_nonzero_exit_message env_failing (u "Di hola") empty_world
           1 [] (u "boom")); [lia|reflexivity].
Defined.

Lemma cli_wrappers_outcomes_witness :
  fst (call_claude_cli (env_replying (u " hola ")) (u "Di hola") empty_world)
  = Ok (strip (u " hola ")).
Proof.
  destruct (cli_wrappers_outcomes (env_replying (u " hola ")) (u "Di hola")
              empty_world) as (_ & _ & _ & _ & Hclaude & _).
  apply (Hclaude (u " hola ") []). reflexivity.
Defined.

Lemma call_ai_reply_is_stripped_witness :
  strip (u "hola") = u "hola".
Proof.
  apply (call_ai_reply_is_stripped (env_replying (u " hola ")) (u "Di hola")
           (u "claude") 4000 empty_world (u "hola")).
  vm_compute. reflexivity.
Defined.

Lemma call_ai_json_total_witness :
  fst (call_ai_json (env_replying (u "sin datos")) Empty_set loads_refusing
         (u "Dame datos") (u "claude") empty_world)
  = Ok (JDict [(u "raw_response", JStr (extract_fenced (u "sin datos")))]).
Proof.
  destruct (call_ai_json_total (env_replying (u "sin datos")) Empty_set
              loads_refusing (u "Dame datos") (u "claude") empty_world)
    as (v & w' & t & Heq & _ & _ & _ & _ & _ & Hv).
  rewrite Heq. cbn [fst]. f_equal.
  destruct (Hv empty_world (Some (u "sin datos"))) as (_ & Hreply);
    [vm_compute; reflexivity|].
  apply (Hreply (u "sin datos")); vm_compute; reflexivity.
Defined.

Lemma extract_fenced_json_block_witness :
  extract_fenced (u "Here: " ++ json_fence ++ u " {} " ++ fence ++ u " bye")
  = strip (u " {} ").
Proof.
  apply (extract_fenced_json_block (u "Here: ") (u " {} ") (u " bye"));
    vm_compute; intuition discriminate.
Defined.


Lemma extract_fenced_plain_witness :
  extract_fenced (u "{1}") = u "{1}".
Proof.
  apply (extract_fenced_plain (u "{1}")). vm_compute. intuition discriminate.
Defined.

Lemma unknown_provider_generates_nothing_witness :
  exists w' t,
    generate_chapter_with_coherence ascii_lower (env_replying (u "texto"))
      unit_backend 1 (u "Intro") (u "esquema") (u ".") (u "gpt") empty_world
    = (Ok None, w')
    /\ files w' = files empty_world /\ dirs w' = dirs empty_world
    /\ stores w' = stores empty_world
    /\ trace w' = trace empty_world ++ t
    /\ List.filter is_run t = []
    /\ List.filter is_fs t = [].
Proof.
  apply (unknown_provider_generates_nothing ascii_lower
           (env_replying (u "texto")) unit_backend 1 (u "Intro") (u "esquema")
           (u ".") (u "gpt") empty_world);
    vm_compute; discriminate.
Defined.

Lemma blank_output_is_failure_witness :
  exists w',
    generate_chapter_with_coherence ascii_lower env_blank unit_backend
      1 (u "Intro") (u "esquema") (u ".") (u "claude") empty_world
    = (Ok None, w')
    /\ files w' = files empty_world /\ dirs w' = dirs empty_world
    /\ stores w' = stores empty_world.
Proof.
  apply (blank_output_is_failure ascii_lower env_blank unit_backend
           1 (u "Intro") (u "esquema") (u ".") (u "claude") empty_world
           [u "claude"; u "--print"]
           (Some (prompt_for env_blank unit_backend 1 (u "Intro") (u "esquema")
                    (u ".") empty_world))
           nl []).
  - vm_compute. reflexivity.
  - reflexivity.
  - repeat constructor.
Defined.

Lemma failed_write_truncates_chapter_witness :
  exists w',
    generate_chapter_with_coherence ascii_lower env_disk_fills unit_backend
      1 (u "Intro") (u "esquema") (u ".") (u "claude") world_with_chapter
    = (Raise (MkExn OSError (u "No space left on device")), w')
    /\ files w'
       !! to_str (output_path_of ascii_lower (u ".") 1 (u "Intro"))
       = Some (u "text")
    /\ stores w' = stores world_with_chapter.
Proof.
  apply (failed_write_truncates_chapter ascii_lower env_disk_fills
           unit_backend 1 (u "Intro") (u "esquema") (u ".") (u "claude")
           world_with_chapter (u "texto nuevo"));
    vm_compute; reflexivity.
Defined.

Lemma returned_text_is_saved_output_witness :
  u "texto" <> []
  /\ files (snd (generate_chapter_with_coherence ascii_lower
                   (env_replying (u " texto ")) unit_backend
                   1 (u "Intro") (u "esquema") (u ".") (u "claude")
                   empty_world))
     !! to_str (output_path_of ascii_lower (u ".") 1 (u "Intro"))
     = Some (u "texto").
Proof.
  destruct (returned_text_is_saved_output ascii_lower
              (env_replying (u " texto ")) unit_backend
              1 (u "Intro") (u "esquema") (u ".") (u "claude") empty_world
              (u "texto")
              (snd (generate_chapter_with_coherence ascii_lower
                      (env_replying (u " texto ")) unit_backend
                      1 (u "Intro") (u "esquema") (u ".") (u "claude")
                      empty_world)))
    as (Hne & Hfile & _); [vm_compute; reflexivity|].
  split; assumption.
Defined.

Lemma synthesize_fallback_order_witness :
  let papers := found_papers renv_one_paper (u "llm") [u "arxiv"] 10 in
  exists t,
    synthesize_with_ai env_claude_down papers (u "llm") empty_world
    = (Ok (u "texto"), logs t empty_world)
    /\ List.filter is_run t
       = [Run [u "claude"; u "--print"]
              (Some (synthesis_request papers (u "llm"))) 120;
          Run [u "gemini"; synthesis_request papers (u "llm")] None 120].
Proof.
  cbv zeta.
  destruct (synthesize_fallback_order env_claude_down
              (found_papers renv_one_paper (u "llm") [u "arxiv"] 10)
              (u "llm") empty_world) as (t & Heq & Hrun & _);
    [vm_compute; discriminate|].
  exists t. split; [rewrite Heq; vm_compute; reflexivity|].
  rewrite Hrun. vm_compute. reflexivity.
Defined.

Lemma run_research_report_witness :
  exists w' text,
    run_research (env_replying (u "texto")) renv_one_paper args_example
      empty_world = (Ok tt, w')
    /\ (forall w0 : World unit,
          fst (synthesize_with_ai (env_replying (u "texto"))
                 (found_papers renv_one_paper (query args_example)
                    (databases args_example) (limit args_example))
                 (query args_example) w0) = Ok text)
    /\ files w' !! u "outputs/research_synthesis.md"
       = Some (u "# Research Synthesis" ++ nl ++ nl ++
               u "**Query:** " ++ query args_example ++ nl ++ nl ++
               u "**Date:** " ++ current_date renv_one_paper ++ nl ++ nl ++
               u "---" ++ nl ++ nl ++
               text).
Proof.
  apply (run_research_report (env_replying (u "texto")) renv_one_paper
           args_example empty_world); reflexivity.
Defined.

Lemma no_papers_no_ai_call_witness :
  exists res w' t,
    run_research (env_replying (u "texto")) renv_no_arxiv args_example
      empty_world = (res, w')
    /\ trace w' = trace empty_world ++ t
    /\ List.filter is_run t = [].
Proof.
  destruct (no_papers_no_ai_call (env_replying (u "texto")) renv_no_arxiv
              args_example empty_world)
    as (res & w' & t & Heq & Ht & Hrun & _); [vm_compute; reflexivity|].
  by exists res, w', t.
Defined.

Lemma run_research_writes_one_file_witness :
  exists res w' t,
    run_research (env_replying (u "texto")) renv_one_paper args_example
      empty_world = (res, w')
    /\ files w' !! u "outputs/bibliography.bib" = None
    /\ last t = Some (Print (u "Bibliography: outputs/bibliography.bib")).
Proof.
  destruct (run_research_writes_one_file (env_replying (u "texto"))
              renv_one_paper args_example empty_world)
    as (res & w' & t & Heq & _ & _ & _ & Hbib & Hlast).
  exists res, w', t. split; [exact Heq|]. split; [exact Hbib|].
  apply Hlast; reflexivity.
Defined.
Lemma synthesis_reads_ten_papers_witness :
  synthesis_request (List.repeat paper_example 10 ++ [paper_example]) (u "llm")
  = synthesis_request (List.repeat paper_example 10) (u "llm").
Proof.
  apply (synthesis_reads_ten_papers (env_replying (u "texto"))
           (List.repeat paper_example 10) [paper_example] (u "llm")
           empty_world).
  simpl. lia.
Defined.
